(** * reqsched: scheduled one-shot GET requests

    A shallow embedding of [reqsched.py] (async-daily-requester): the time
    parser [parse_timestring], the delayed task [wait_and_request], the
    fetcher [_do_request], the command line [_parse_cli] and the scheduler
    [start], together with the parts of the Python library they rest on
    ([datetime], [_strptime], [asyncio.sleep], exception classes).

    Conventions.
    - A Python [str] is modelled by the [string] of its UTF-8 bytes; the
      regular expressions of [_strptime] run on its code points, and [\d]
      is any Unicode decimal digit.
    - The local clock, the network and the completion order of tasks are
      an explicit [world]; every theorem quantifies over all worlds.
    - An exception is a value of type [exn]; a computation that may raise
      returns [exn + A], with [inl] for the raised exception.
    - [logging] calls do not influence control flow and are left out. *)

From Stdlib Require Import ZArith List String Ascii Bool Lia Permutation.
Import ListNotations.

Set Implicit Arguments.

(* ===================================================================== *)
(** ** Exceptions *)
(* ===================================================================== *)

Module PyExn.

(** The exception classes that occur in the program, with the class
    hierarchy of CPython. *)
Inductive exn_class :=
| BaseException
| KeyboardInterrupt
| CancelledError
| Exception
| ValueError
| OSError
| TimeoutError
| HTTPException
| URLError
| HTTPError.

Definition parent (c : exn_class) : option exn_class :=
  match c with
  | BaseException => None
  | KeyboardInterrupt => Some BaseException
  | CancelledError => Some BaseException
  | Exception => Some BaseException
  | ValueError => Some Exception
  | OSError => Some Exception
  | HTTPException => Some Exception
  | TimeoutError => Some OSError
  | URLError => Some OSError
  | HTTPError => Some URLError
  end.

Definition class_eqb (a b : exn_class) : bool :=
  match a, b with
  | BaseException, BaseException | KeyboardInterrupt, KeyboardInterrupt
  | CancelledError, CancelledError | Exception, Exception
  | ValueError, ValueError | OSError, OSError | TimeoutError, TimeoutError
  | HTTPException, HTTPException | URLError, URLError
  | HTTPError, HTTPError => true
  | _, _ => false
  end.

(** [issubclass_fuel n c d]: [d] is reached from [c] in at most [n] steps
    along [parent].  The hierarchy has depth 4. *)
Fixpoint issubclass_fuel (n : nat) (c d : exn_class) : bool :=
  class_eqb c d ||
  match n with
  | O => false
  | S n' => match parent c with
            | Some p => issubclass_fuel n' p d
            | None => false
            end
  end.

Definition issubclass (c d : exn_class) : bool := issubclass_fuel 4 c d.

Record exn := mkexn { cls : exn_class; code : Z; detail : string }.

Definition isinstance (e : exn) (c : exn_class) : bool := issubclass (cls e) c.

End PyExn.
Import PyExn.

(* ===================================================================== *)
(** ** datetime *)
(* ===================================================================== *)

Module PyDatetime.

Local Open Scope Z_scope.

Record datetime := mkdatetime {
  year : Z; month : Z; day : Z;
  hour : Z; minute : Z; second : Z; microsecond : Z
}.

(** [datetime.time()]: the naive time-of-day part. *)
Record time := mktime { t_hour : Z; t_minute : Z; t_second : Z; t_microsecond : Z }.

Definition dt_time (d : datetime) : time :=
  mktime (hour d) (minute d) (second d) (microsecond d).

(** [time.__lt__] of naive times compares
    (hour, minute, second, microsecond) lexicographically. *)
Definition time_lt (a b : time) : bool :=
  (t_hour a <? t_hour b) ||
  ((t_hour a =? t_hour b) &&
   ((t_minute a <? t_minute b) ||
    ((t_minute a =? t_minute b) &&
     ((t_second a <? t_second b) ||
      ((t_second a =? t_second b) &&
       (t_microsecond a <? t_microsecond b)))))).

(** [datetime.replace(year=, month=, day=)].  The date given by the clock
    is a valid date, so the field check of [replace] passes. *)
Definition replace_date (d : datetime) (y m dd : Z) : datetime :=
  mkdatetime y m dd (hour d) (minute d) (second d) (microsecond d).

(** The constructor check [_check_time_fields]; the date of
    [strptime]'s result is 1900-01-01. *)
Definition check_time_fields (h m s : Z) : bool :=
  (0 <=? h) && (h <=? 23) && (0 <=? m) && (m <=? 59) &&
  (0 <=? s) && (s <=? 59).

Definition is_leap (y : Z) : bool :=
  (y mod 4 =? 0) && (negb (y mod 100 =? 0) || (y mod 400 =? 0)).

Definition days_before_year (y : Z) : Z :=
  let y1 := y - 1 in y1 * 365 + y1 / 4 - y1 / 100 + y1 / 400.

Definition days_in_month (y m : Z) : Z :=
  if m =? 2 then (if is_leap y then 29 else 28)
  else if (m =? 4) || (m =? 6) || (m =? 9) || (m =? 11) then 30 else 31.

Fixpoint days_before_month_aux (y : Z) (n : nat) : Z :=
  match n with
  | O => 0
  | S n' => days_before_month_aux y n' + days_in_month y (Z.of_nat n)
  end.

Definition days_before_month (y m : Z) : Z :=
  days_before_month_aux y (Z.to_nat (m - 1)).

Definition ymd2ord (y m d : Z) : Z :=
  days_before_year y + days_before_month y m + d.

Definition toordinal (d : datetime) : Z := ymd2ord (year d) (month d) (day d).

(** [datetime.__sub__] followed by [timedelta.total_seconds()], kept exact
    as a number of microseconds.  [total_seconds] divides this number by
    10**6 in floating point, which keeps its sign and its being zero. *)
Definition sub_microseconds (a b : datetime) : Z :=
  let days := toordinal a - toordinal b in
  let secs := (second a + minute a * 60 + hour a * 3600)
              - (second b + minute b * 60 + hour b * 3600) in
  (days * 86400 + secs) * 1000000 + (microsecond a - microsecond b).

End PyDatetime.
Import PyDatetime.

(* ===================================================================== *)
(** ** _strptime: the regular expression of a format, and matching *)
(* ===================================================================== *)

Module Strptime.

(** *** The characters of a string *)

(** A [string] holds the UTF-8 bytes of a Python [str]; [chars] gives its
    code points.  A byte that is not part of a well-formed sequence
    becomes the code point U+DC00 + byte, as Python does when it reads
    the command line. *)
Definition is_cont (b : N) : bool := ((128 <=? b) && (b <=? 191))%N.

Fixpoint utf8_decode (bs : list N) : list N :=
  match bs with
  | [] => []
  | b :: rest =>
      if (b <? 128)%N then b :: utf8_decode rest
      else
        match rest with
        | c1 :: rest1 =>
            if ((194 <=? b) && (b <=? 223))%N && is_cont c1 then
              ((b - 192) * 64 + (c1 - 128))%N :: utf8_decode rest1
            else
              match rest1 with
              | c2 :: rest2 =>
                  let cp3 := ((b - 224) * 4096 + (c1 - 128) * 64 + (c2 - 128))%N in
                  if ((224 <=? b) && (b <=? 239))%N && is_cont c1 && is_cont c2
                     && (2048 <=? cp3)%N
                     && negb ((55296 <=? cp3) && (cp3 <=? 57343))%N then
                    cp3 :: utf8_decode rest2
                  else
                    match rest2 with
                    | c3 :: rest3 =>
                        let cp4 := ((b - 240) * 262144 + (c1 - 128) * 4096
                                    + (c2 - 128) * 64 + (c3 - 128))%N in
                        if ((240 <=? b) && (b <=? 244))%N
                           && is_cont c1 && is_cont c2 && is_cont c3
                           && (65536 <=? cp4)%N && (cp4 <=? 1114111)%N then
                          cp4 :: utf8_decode rest3
                        else (56320 + b)%N :: utf8_decode rest
                    | [] => (56320 + b)%N :: utf8_decode rest
                    end
              | [] => (56320 + b)%N :: utf8_decode rest
              end
        | [] => [(56320 + b)%N]
        end
  end.

Definition chars (s : string) : list N :=
  utf8_decode (map N_of_ascii (list_ascii_of_string s)).

(** The decimal digits of Unicode 14.0 (the database of CPython 3.11):
    66 runs of ten code points, each run the digits 0..9 in order; the
    list holds the zero of each run.  These are the characters that [\d]
    matches and that [int] converts. *)
Definition decimal_zeros : list N :=
  [48; 1632; 1776; 1984; 2406; 2534; 2662; 2790; 2918; 3046; 3174; 3302;
   3430; 3558; 3664; 3792; 3872; 4160; 4240; 6112; 6160; 6470; 6608; 6784;
   6800; 6992; 7088; 7232; 7248; 42528; 43216; 43264; 43472; 43504; 43600;
   44016; 65296; 66720; 68912; 69734; 69872; 69942; 70096; 70384; 70736;
   70864; 71248; 71360; 71472; 71904; 72016; 72784; 73040; 73120; 92768;
   92864; 93008; 120782; 120792; 120802; 120812; 120822; 123200; 123632;
   125264; 130032]%N.

Fixpoint decimal_in (zeros : list N) (c : N) : option Z :=
  match zeros with
  | [] => None
  | z :: zeros' =>
      if ((z <=? c) && (c <? z + 10))%N then Some (Z.of_N (c - z))
      else decimal_in zeros' c
  end.

(** [Py_UNICODE_TODECIMAL]: the value of a decimal digit. *)
Definition unicode_decimal (c : N) : option Z := decimal_in decimal_zeros c.

(** *** Regular expressions *)

Inductive regex :=
| Chr (c : ascii)                    (* a literal character *)
| Cls (lo hi : ascii)                (* [lo-hi] *)
| Digit                              (* \d *)
| Cat (r1 r2 : regex)                (* r1 r2 *)
| Alt (r1 r2 : regex)                (* r1|r2 *)
| Group (name : ascii) (r : regex).  (* (?P<name>r) *)

Definition in_class (lo hi : ascii) (c : N) : bool :=
  ((N_of_ascii lo <=? c) && (c <=? N_of_ascii hi))%N.

(** [\d] in a [str] pattern: any Unicode decimal digit. *)
Definition is_digit (c : N) : bool :=
  match unicode_decimal c with
  | Some _ => true
  | None => false
  end.

(** The groups of a match: name and matched text, latest first. *)
Definition groups := list (ascii * list N).

(** Backtracking matcher in continuation-passing style: [k] is the rest
    of the pattern.  [Alt] tries its left branch first and moves to the
    right one only when the left one cannot be completed, as [re] does. *)
Fixpoint rmatch (A : Type) (r : regex) (s : list N) (g : groups)
         (k : list N -> groups -> option A) : option A :=
  match r with
  | Chr c =>
      match s with
      | c' :: s' => if N.eqb (N_of_ascii c) c' then k s' g else None
      | [] => None
      end
  | Cls lo hi =>
      match s with
      | c' :: s' => if in_class lo hi c' then k s' g else None
      | [] => None
      end
  | Digit =>
      match s with
      | c' :: s' => if is_digit c' then k s' g else None
      | [] => None
      end
  | Cat r1 r2 => rmatch r1 s g (fun s1 g1 => rmatch r2 s1 g1 k)
  | Alt r1 r2 =>
      match rmatch r1 s g k with
      | Some x => Some x
      | None => rmatch r2 s g k
      end
  | Group n r1 =>
      rmatch r1 s g
        (fun s1 g1 => k s1 ((n, firstn (List.length s - List.length s1) s) :: g1))
  end.

(** [pattern.match(s)]: the end of the match and its groups. *)
Definition re_match (r : regex) (s : list N) : option (nat * groups) :=
  rmatch r s [] (fun rest g => Some ((List.length s - List.length rest)%nat, g)).

Fixpoint group_get (g : groups) (n : ascii) : list N :=
  match g with
  | [] => []
  | (m, v) :: g' => if Ascii.eqb m n then v else group_get g' n
  end.

(** The directives of [TimeRE] that the program's format uses:
    %H is (?P<H>2[0-3]|[0-1]\d|\d), %M is (?P<M>[0-5]\d|\d) and
    %S is (?P<S>6[0-1]|[0-5]\d|\d). *)
Definition directive (d : ascii) : option regex :=
  if Ascii.eqb d "H" then
    Some (Group "H" (Alt (Cat (Chr "2") (Cls "0" "3"))
                    (Alt (Cat (Cls "0" "1") Digit) Digit)))
  else if Ascii.eqb d "M" then
    Some (Group "M" (Alt (Cat (Cls "0" "5") Digit) Digit))
  else if Ascii.eqb d "S" then
    Some (Group "S" (Alt (Cat (Chr "6") (Cls "0" "1"))
                    (Alt (Cat (Cls "0" "5") Digit) Digit)))
  else None.

(** [TimeRE.pattern]: a directive becomes its expression, any other
    character stands for itself.  [None] is a directive outside the three
    above (or a stray %). *)
Fixpoint pattern (fmt : list ascii) : option (list regex) :=
  match fmt with
  | [] => Some []
  | c :: fmt' =>
      if Ascii.eqb c "%" then
        match fmt' with
        | d :: fmt'' =>
            match directive d, pattern fmt'' with
            | Some r, Some rs => Some (r :: rs)
            | _, _ => None
            end
        | [] => None
        end
      else
        match pattern fmt' with
        | Some rs => Some (Chr c :: rs)
        | None => None
        end
  end.

Fixpoint cat_all (rs : list regex) : option regex :=
  match rs with
  | [] => None
  | [r] => Some r
  | r :: rs' => match cat_all rs' with
                | Some r' => Some (Cat r r')
                | None => None
                end
  end.

Definition compile (fmt : string) : option regex :=
  match pattern (list_ascii_of_string fmt) with
  | Some rs => cat_all rs
  | None => None
  end.

Local Open Scope Z_scope.

(** The value of a digit of a matched text. *)
Definition digit_value (c : N) : Z :=
  match unicode_decimal c with
  | Some v => v
  | None => 0
  end.

(** [int(text)] on a text of decimal digits. *)
Definition int_of (text : list N) : Z :=
  fold_left (fun acc c => 10 * acc + digit_value c) text 0.

Definition value_error (msg : string) : exn := mkexn ValueError 0 msg.

(** [_strptime] restricted to the fields hour, minute, second, followed by
    the [datetime] constructor of [_strptime_datetime] (date 1900-01-01,
    no fraction). *)
Definition strptime (data_string format : string) : exn + datetime :=
  match compile format with
  | None => inl (value_error "bad directive in format")
  | Some format_regex =>
      let data := chars data_string in
      match re_match format_regex data with
      | None => inl (value_error "time data does not match format")
      | Some (found_end, found_dict) =>
          if negb (Nat.eqb (List.length data) found_end) then
            inl (value_error "unconverted data remains")
          else
            let h := int_of (group_get found_dict "H") in
            let m := int_of (group_get found_dict "M") in
            let s := int_of (group_get found_dict "S") in
            if check_time_fields h m s then
              inr (mkdatetime 1900 1 1 h m s 0)
            else inl (value_error "second must be in 0..59")
      end
  end.

End Strptime.
Import Strptime.


Open Scope string_scope.

(* ===================================================================== *)
(** ** reqsched.py *)
(* ===================================================================== *)

Module Reqsched.

(** *** The world around the program *)

(** [urllib.request.Request(url, headers={'User-Agent': ...})] with the
    timeout handed to [urlopen]. *)
Record request := mkrequest {
  req_url : string;
  req_user_agent : string;
  req_timeout : Z
}.

(** The [addinfourl] answer: [c.status] and [c.url]. *)
Record response := mkresponse { status : Z; url : string }.

(** What [urlopen] raises: the errors of [urllib] and of the layers below
    it, all of them subclasses of [Exception]. *)
Inductive url_failure :=
| Fail_HTTPError (c : Z) (reason : string)
| Fail_URLError (reason : string)
| Fail_timeout
| Fail_OSError (msg : string)
| Fail_ValueError (msg : string)
| Fail_HTTPException (msg : string).

Definition raised (f : url_failure) : exn :=
  match f with
  | Fail_HTTPError c reason => mkexn HTTPError c reason
  | Fail_URLError reason => mkexn URLError 0 reason
  | Fail_timeout => mkexn TimeoutError 0 "timed out"
  | Fail_OSError msg => mkexn OSError 0 msg
  | Fail_ValueError msg => mkexn ValueError 0 msg
  | Fail_HTTPException msg => mkexn HTTPException 0 msg
  end.

Inductive url_result :=
| Responds (c : response)
| Fails (f : url_failure).

(** The clock, the network and the scheduling of one run.
    Entries of the batch are numbered from 0 in input order, launched
    tasks from 0 in launch order. *)
Record world := mkworld {
  today_at : nat -> datetime;   (* [datetime.today()] read for entry i *)
  now_at : nat -> datetime;     (* [datetime.now()] read by [start] for entry i *)
  task_now : nat -> datetime;   (* [datetime.now()] read by task k when it starts *)
  urlopen : nat -> request -> url_result;   (* the answer to task k's request *)
  finish : nat -> Z             (* the instant at which task k completes *)
}.

(** What a task does that is visible from outside. *)
Inductive event :=
| EvYield                (* [asyncio.sleep] with a delay <= 0: one bare yield *)
| EvTimer (us : Z)       (* [asyncio.sleep] with a positive delay *)
| EvGET (r : request).   (* one call of [urlopen] *)

(** *** Module level state *)

(** [CONFIG] is a class whose attributes are read and written in place.
    The default values of a function's parameters are evaluated once, when
    its [def] statement runs, and kept with the function. *)
Record globals := mkglobals {
  CONFIG_URL : string;
  CONFIG_TIMESTAMP_FMT : string;
  wait_and_request_defaults : string * Z   (* (url, timeout) *)
}.

(** Running the module top to bottom: the class body of [CONFIG], then
    [def wait_and_request(dt, url=CONFIG.URL, timeout=1)]. *)
Definition module_load : globals :=
  let URL := "http://ifconfig.co/" in
  let TIMESTAMP_FMT := "%H:%M:%S" in
  mkglobals URL TIMESTAMP_FMT (URL, 1%Z).

(** *** parse_timestring *)

Definition parse_timestring (g : globals) (w : world) (i : nat)
           (timestring : string) : exn + datetime :=
  match strptime timestring (CONFIG_TIMESTAMP_FMT g) with
  | inl e => inl e
  | inr dt =>
      let today := today_at w i in
      inr (replace_date dt (year today) (month today) (day today))
  end.

(** *** _do_request and wait_and_request *)

(** [urlopen] is called before the [try] block, so what it raises leaves
    [_do_request] as it is. *)
Definition _do_request (w : world) (k : nat) (url : string) (timeout : Z)
  : list event * (exn + response) :=
  let r := mkrequest url "Mozilla/5.0" timeout in
  match urlopen w k r with
  | Responds c => ([EvGET r], inr c)
  | Fails f => ([EvGET r], inl (raised f))
  end.

(** [asyncio.sleep(delay)]: [if delay <= 0: await __sleep0()], otherwise a
    timer; in both cases it returns normally. *)
Definition asyncio_sleep (delay_us : Z) : list event :=
  if (delay_us <=? 0)%Z then [EvYield] else [EvTimer delay_us].

Definition wait_and_request (w : world) (k : nat) (dt : datetime)
           (url : string) (timeout : Z) : list event * (exn + response) :=
  let now := task_now w k in
  let seconds := sub_microseconds dt now in
  let slept := asyncio_sleep seconds in
  let '(fetched, result) := _do_request w k url timeout in
  ((slept ++ fetched)%list, result).

(** *** _parse_cli *)

(** The [Namespace] that [argparse] returns. *)
Record namespace := mknamespace {
  arg_timestamps : string;
  arg_url : option string
}.

(** [str.split(sep)] for a one-character separator. *)
Fixpoint split (sep : ascii) (s : string) : list string :=
  match s with
  | EmptyString => [EmptyString]
  | String c s' =>
      if Ascii.eqb c sep then EmptyString :: split sep s'
      else match split sep s' with
           | x :: xs => String c x :: xs
           | [] => [String c EmptyString]
           end
  end.

(** [if args.url:] holds for a string that is present and not empty. *)
Definition truthy (o : option string) : bool :=
  match o with
  | Some u => negb (String.eqb u "")
  | None => false
  end.

Definition _parse_cli (args : namespace) (g : globals) : globals * list string :=
  let g' :=
    match arg_url args with
    | Some u =>
        if truthy (arg_url args)
        then mkglobals u (CONFIG_TIMESTAMP_FMT g) (wait_and_request_defaults g)
        else g
    | None => g
    end in
  (g', split "," (arg_timestamps args)).

(** *** start *)

(** The coroutine object made by [wait_and_request(dt)]: its arguments,
    with the defaults filled in at the call. *)
Record task := mktask { task_dt : datetime; task_url : string; task_timeout : Z }.

Record intake_state := mkintake { passes : Z; skips : Z; tasks : list task }.

Definition skip (st : intake_state) : intake_state :=
  mkintake (passes st) (skips st + 1) (tasks st).

Definition launch (g : globals) (st : intake_state) (dt : datetime) : intake_state :=
  let '(url, timeout) := wait_and_request_defaults g in
  mkintake (passes st + 1) (skips st) (tasks st ++ [mktask dt url timeout])%list.

(** The body of the first loop, for entry number [i]. *)
Definition intake_step (g : globals) (w : world) (i : nat)
           (st : intake_state) (timestring : string) : exn + intake_state :=
  match parse_timestring g w i timestring with
  | inr dt =>
      if time_lt (dt_time dt) (dt_time (now_at w i))
      then inr (skip st)
      else inr (launch g st dt)
  | inl e =>
      if isinstance e ValueError then inr (skip st) else inl e
  end.

Fixpoint intake_loop (g : globals) (w : world) (i : nat)
         (timestamps : list string) (st : intake_state) : exn + intake_state :=
  match timestamps with
  | [] => inr st
  | timestring :: rest =>
      match intake_step g w i st timestring with
      | inr st' => intake_loop g w (S i) rest st'
      | inl e => inl e
      end
  end.

(** Every task runs once the loop is over; task number [k] is the [k]-th
    one created. *)
Fixpoint run_tasks (w : world) (k : nat) (ts : list task)
  : list (nat * (list event * (exn + response))) :=
  match ts with
  | [] => []
  | t :: ts' =>
      (k, wait_and_request w k (task_dt t) (task_url t) (task_timeout t))
      :: run_tasks w (S k) ts'
  end.

(** [asyncio.as_completed]: the tasks in the order in which they finish. *)
Fixpoint insert_by (A : Type) (key : A -> Z) (x : A) (l : list A) : list A :=
  match l with
  | [] => [x]
  | y :: l' => if (key x <? key y)%Z then x :: l else y :: insert_by key x l'
  end.

Definition as_completed (A : Type) (w : world) (runs : list (nat * A)) : list (nat * A) :=
  fold_right (insert_by (fun r => finish w (fst r))) [] runs.

(** The second loop: [await coro] inside [try], with the clauses
    [except HTTPError] and [except Exception]. *)
Definition drain_step (errors : Z) (awaited : exn + response) : exn + Z :=
  match awaited with
  | inr result => inr errors
  | inl e =>
      if isinstance e HTTPError then inr (errors + 1)%Z
      else if isinstance e Exception then inr (errors + 1)%Z
      else inl e
  end.

Fixpoint drain (awaited : list (exn + response)) (errors : Z) : exn + Z :=
  match awaited with
  | [] => inr errors
  | a :: rest =>
      match drain_step errors a with
      | inr errors' => drain rest errors'
      | inl e => inl e
      end
  end.

Definition intake_init : intake_state := mkintake 0 0 [].

(** [start] returns the triple, or raises; next to it the model keeps the
    events of every launched task, in launch order. *)
Definition start (g : globals) (w : world) (timestamps : list string)
  : (exn + (Z * Z * Z)) * list (list event) :=
  match intake_loop g w 0 timestamps intake_init with
  | inl e => (inl e, [])
  | inr st =>
      let runs := run_tasks w 0 (tasks st) in
      let log := map (fun r => fst (snd r)) runs in
      match drain (map (fun r => snd (snd r)) (as_completed w runs)) 0 with
      | inr errors => (inr (passes st, skips st, errors), log)
      | inl e => (inl e, log)
      end
  end.

(** The [__main__] block: the module is loaded, then the command line is
    read, then [start] runs on the split list. *)
Definition main (args : namespace) (w : world)
  : globals * ((exn + (Z * Z * Z)) * list (list event)) :=
  let '(g, timestamps_list) := _parse_cli args module_load in
  (g, start g w timestamps_list).

End Reqsched.
Import Reqsched.


(* ===================================================================== *)
(** ** Reading the specification *)
(* ===================================================================== *)

(** What happens to one entry of the batch, in the words of the
    specification: it cannot be parsed, it lies before the current time of
    day, or it is launched. *)
Inductive entry_kind := Unparsable | AlreadyPast | Launchable.

Definition kind_eqb (a b : entry_kind) : bool :=
  match a, b with
  | Unparsable, Unparsable | AlreadyPast, AlreadyPast
  | Launchable, Launchable => true
  | _, _ => false
  end.

Definition classify (g : globals) (w : world) (i : nat) (timestring : string)
  : entry_kind :=
  match parse_timestring g w i timestring with
  | inl _ => Unparsable
  | inr dt =>
      if time_lt (dt_time dt) (dt_time (now_at w i)) then AlreadyPast
      else Launchable
  end.

(** The number of entries of kind [c] in a batch whose first entry has
    number [i]. *)
Fixpoint count_kind (c : entry_kind) (g : globals) (w : world) (i : nat)
         (timestamps : list string) : Z :=
  match timestamps with
  | [] => 0
  | t :: rest =>
      ((if kind_eqb (classify g w i t) c then 1 else 0)
       + count_kind c g w (S i) rest)%Z
  end.

(** A task outcome is a failure when awaiting it raises. *)
Definition failed (a : exn + response) : bool :=
  match a with
  | inl _ => true
  | inr _ => false
  end.

Definition outcomes (w : world) (ts : list task) : list (exn + response) :=
  map (fun r => snd (snd r)) (run_tasks w 0 ts).

Definition failed_count (w : world) (ts : list task) : Z :=
  Z.of_nat (List.length (filter failed (outcomes w ts))).

(** The requests of one task's events. *)
Fixpoint gets (evs : list event) : list request :=
  match evs with
  | [] => []
  | EvGET r :: evs' => r :: gets evs'
  | _ :: evs' => gets evs'
  end.

(** What awaiting a task yields: an answer, or an exception below
    [Exception]. *)
Definition catchable (a : exn + response) : Prop :=
  match a with
  | inl e => isinstance e Exception = true
  | inr _ => True
  end.


(** *** The time strings *)

(** The expressions of the three directives and of the program's format
    "%H:%M:%S". *)
Definition hour_regex : regex :=
  Group "H" (Alt (Cat (Chr "2") (Cls "0" "3"))
            (Alt (Cat (Cls "0" "1") Digit) Digit)).

Definition minute_regex : regex :=
  Group "M" (Alt (Cat (Cls "0" "5") Digit) Digit).

Definition second_regex : regex :=
  Group "S" (Alt (Cat (Chr "6") (Cls "0" "1"))
            (Alt (Cat (Cls "0" "5") Digit) Digit)).

Definition time_regex : regex :=
  Cat hour_regex
 (Cat (Chr ":")
 (Cat minute_regex
 (Cat (Chr ":") second_regex))).

(** The texts that an expression matches, with the groups it binds. *)
Inductive matches : regex -> list N -> groups -> groups -> Prop :=
| M_Chr c g : matches (Chr c) [N_of_ascii c] g g
| M_Cls lo hi c g : in_class lo hi c = true -> matches (Cls lo hi) [c] g g
| M_Digit c g : is_digit c = true -> matches Digit [c] g g
| M_Cat r1 r2 p1 p2 g g1 g2 :
    matches r1 p1 g g1 -> matches r2 p2 g1 g2 ->
    matches (Cat r1 r2) (p1 ++ p2) g g2
| M_AltL r1 r2 p g g1 : matches r1 p g g1 -> matches (Alt r1 r2) p g g1
| M_AltR r1 r2 p g g1 : matches r2 p g g1 -> matches (Alt r1 r2) p g g1
| M_Group n r p g g1 : matches r p g g1 -> matches (Group n r) p g ((n, p) :: g1).

(** One of the characters 0..9 of ASCII. *)
Definition ascii_digit (c : N) : bool := ((48 <=? c) && (c <=? 57))%N.

(** The colon. *)
Definition colon : N := 58%N.

(** A field: one decimal digit, or a digit 0..9 followed by a decimal
    digit. *)
Definition field_text (f : list N) : bool :=
  match f with
  | [d] => is_digit d
  | [d1; d2] => ascii_digit d1 && is_digit d2
  | _ => false
  end.

(** An hour field that begins with 2 has a second digit 0..9. *)
Definition twenties_ascii (f : list N) : bool :=
  match f with
  | [d1; d2] => negb (d1 =? 50)%N || ascii_digit d2
  | _ => true
  end.

(** [s] is three fields separated by colons, with the values [h], [m]
    and [sec]. *)
Definition H_M_S (s : string) (h m sec : Z) : Prop :=
  exists fh fm fs,
    chars s = (fh ++ colon :: fm ++ colon :: fs)%list /\
    field_text fh = true /\ field_text fm = true /\ field_text fs = true /\
    twenties_ascii fh = true /\
    h = int_of fh /\ m = int_of fm /\ sec = int_of fs.

(** In the words of the specification: a string in the format HH:MM:SS,
    two digits 0..9 for each field, and its three values. *)
Definition spec_HH_MM_SS (s : string) : option (Z * Z * Z) :=
  match chars s with
  | [h1; h2; c1; m1; m2; c2; s1; s2] =>
      if ascii_digit h1 && ascii_digit h2 && (c1 =? colon)%N
         && ascii_digit m1 && ascii_digit m2 && (c2 =? colon)%N
         && ascii_digit s1 && ascii_digit s2
      then Some (int_of [h1; h2], int_of [m1; m2], int_of [s1; s2])
      else None
  | _ => None
  end.

(** In the words of the specification: the string matches the format and
    no field is out of range (hour > 23, minute > 59, second > 59). *)
Definition spec_parses (s : string) : bool :=
  match spec_HH_MM_SS s with
  | Some (h, m, sec) => (h <=? 23)%Z && (m <=? 59)%Z && (sec <=? 59)%Z
  | None => false
  end.

(** The string with the given bytes. *)
Definition of_bytes (bs : list N) : string :=
  string_of_list_ascii (map ascii_of_N bs).

(** *** Sample worlds *)

(** A world whose clock stands at [t], in which every request is answered
    with status 200 and tasks finish in launch order. *)
Definition world_at (t : datetime) : world :=
  mkworld (fun _ => t) (fun _ => t) (fun _ => t)
          (fun _ r => Responds (mkresponse 200 (req_url r)))
          (fun k => Z.of_nat k).

(** The same clock, with a network on which every request times out. *)
Definition world_down (t : datetime) : world :=
  mkworld (fun _ => t) (fun _ => t) (fun _ => t)
          (fun _ _ => Fails Fail_timeout)
          (fun k => Z.of_nat k).

Definition noon : datetime := mkdatetime 2026 11 4 12 0 0 0.
Definition midnight : datetime := mkdatetime 2026 11 4 0 0 0 0.

(* ===================================================================== *)
(** ** The rest of the module and of the library under it *)
(* ===================================================================== *)

Module PyDatetimeMore.

Local Open Scope Z_scope.

(** [datetime.__lt__]: the seven fields compared lexicographically. *)
Definition datetime_fields (d : datetime) : list Z :=
  [year d; month d; day d; hour d; minute d; second d; microsecond d].

Fixpoint lex_lt (a b : list Z) : bool :=
  match a, b with
  | x :: a', y :: b' => (x <? y) || ((x =? y) && lex_lt a' b')
  | [], _ :: _ => true
  | _, [] => false
  end.

Definition datetime_lt (a b : datetime) : bool :=
  lex_lt (datetime_fields a) (datetime_fields b).

(** A [timedelta], normalized as its constructor leaves it:
    0 <= seconds < 86400 and 0 <= microseconds < 10**6. *)
Record timedelta := mktimedelta { td_days : Z; td_seconds : Z; td_microseconds : Z }.

(** [timedelta(days, seconds, microseconds)] on integers; [None] is the
    OverflowError raised when the days leave -999999999..999999999. *)
Definition timedelta_new (d s us : Z) : option timedelta :=
  let s1 := s + us / 1000000 in
  let us1 := us mod 1000000 in
  let d1 := d + s1 / 86400 in
  let s2 := s1 mod 86400 in
  if (Z.abs d1 <=? 999999999) then Some (mktimedelta d1 s2 us1) else None.

Definition DI400Y : Z := 146097.
Definition DI100Y : Z := 36524.
Definition DI4Y : Z := 1461.
Definition MAXORDINAL : Z := 3652059.

(** The tables [_DAYS_IN_MONTH] and [_DAYS_BEFORE_MONTH] (index 1..12). *)
Definition DAYS_IN_MONTH (m : Z) : Z :=
  nth (Z.to_nat m) [0; 31; 28; 31; 30; 31; 30; 31; 31; 30; 31; 30; 31] 0.

Definition DAYS_BEFORE_MONTH (m : Z) : Z :=
  nth (Z.to_nat m) [0; 0; 31; 59; 90; 120; 151; 181; 212; 243; 273; 304; 334] 0.

(** [_ord2ymd], the date of an ordinal. *)
Definition ord2ymd (n0 : Z) : Z * Z * Z :=
  let n := n0 - 1 in
  let n400 := n / DI400Y in
  let n := n mod DI400Y in
  let y := n400 * 400 + 1 in
  let n100 := n / DI100Y in
  let n := n mod DI100Y in
  let n4 := n / DI4Y in
  let n := n mod DI4Y in
  let n1 := n / 365 in
  let n := n mod 365 in
  let y := y + n100 * 100 + n4 * 4 + n1 in
  if (n1 =? 4) || (n100 =? 4) then (y - 1, 12, 31)
  else
    let leapyear := (n1 =? 3) && (negb (n4 =? 24) || (n100 =? 3)) in
    let m := Z.shiftr (n + 50) 5 in
    let preceding :=
      DAYS_BEFORE_MONTH m + (if (2 <? m) && leapyear then 1 else 0) in
    if n <? preceding then
      let m := m - 1 in
      let preceding :=
        preceding - (DAYS_IN_MONTH m + (if (m =? 2) && leapyear then 1 else 0)) in
      (y, m, n - preceding + 1)
    else (y, m, n - preceding + 1).

(** [datetime.__add__]: the instant as a [timedelta] from ordinal 0, the
    sum, and the date of the resulting days.  [None] is the OverflowError
    of a sum outside the years 1..9999. *)
Definition datetime_add (t : datetime) (d : timedelta) : option datetime :=
  match timedelta_new (toordinal t + td_days d)
          (hour t * 3600 + minute t * 60 + second t + td_seconds d)
          (microsecond t + td_microseconds d) with
  | None => None
  | Some delta =>
      let h := td_seconds delta / 3600 in
      let rem := td_seconds delta mod 3600 in
      let m := rem / 60 in
      let s := rem mod 60 in
      if (0 <? td_days delta) && (td_days delta <=? MAXORDINAL) then
        let '(y, mo, dd) := ord2ymd (td_days delta) in
        Some (mkdatetime y mo dd h m s (td_microseconds delta))
      else None
  end.

(** Decimal digits and zero padding, as [strftime] and [isoformat] print
    a field. *)
Definition digit_char (k : Z) : ascii := ascii_of_nat (48 + Z.to_nat k).

Definition pad2 (n : Z) : list ascii := [digit_char (n / 10); digit_char (n mod 10)].

Definition pad4 (n : Z) : list ascii :=
  [digit_char (n / 1000); digit_char (n / 100 mod 10);
   digit_char (n / 10 mod 10); digit_char (n mod 10)].

(** [datetime.strftime] for the directives %H, %M and %S; any other
    character of the format stands for itself.  [None] is a directive
    outside these three. *)
Fixpoint strftime_chars (t : datetime) (fmt : list ascii) : option (list ascii) :=
  match fmt with
  | [] => Some []
  | c :: fmt' =>
      if Ascii.eqb c "%" then
        match fmt' with
        | d :: fmt'' =>
            let field :=
              if Ascii.eqb d "H" then Some (pad2 (hour t))
              else if Ascii.eqb d "M" then Some (pad2 (minute t))
              else if Ascii.eqb d "S" then Some (pad2 (second t))
              else None in
            match field, strftime_chars t fmt'' with
            | Some f, Some out => Some (f ++ out)%list
            | _, _ => None
            end
        | [] => None
        end
      else
        match strftime_chars t fmt' with
        | Some out => Some (c :: out)
        | None => None
        end
  end.

Definition strftime (t : datetime) (fmt : string) : option string :=
  match strftime_chars t (list_ascii_of_string fmt) with
  | Some out => Some (string_of_list_ascii out)
  | None => None
  end.

(** [date.isoformat()]: YYYY-MM-DD. *)
Definition isoformat_date (t : datetime) : string :=
  string_of_list_ascii
    (pad4 (year t) ++ "-"%char :: pad2 (month t) ++ "-"%char :: pad2 (day t)).

(** The time of day in seconds since midnight. *)
Definition second_of_day (t : datetime) : Z :=
  hour t * 3600 + minute t * 60 + second t.

(** The time fields of a [datetime] are in their ranges. *)
Definition valid_time (t : datetime) : Prop :=
  0 <= hour t <= 23 /\ 0 <= minute t <= 59 /\ 0 <= second t <= 59 /\
  0 <= microsecond t <= 999999.

End PyDatetimeMore.
Import PyDatetimeMore.

Module ReqschedMore.

(** *** timestamp and timestamp_soon *)

(** [timestamp(sec)], with the reading [now] of [datetime.now()].
    [None] is an OverflowError of the date arithmetic. *)
Definition timestamp (g : globals) (now : datetime) (sec : Z) : option string :=
  match timedelta_new 0 sec 0 with
  | None => None
  | Some a_few_seconds =>
      match datetime_add now a_few_seconds with
      | None => None
      | Some a_few_seconds_from_now =>
          strftime a_few_seconds_from_now (CONFIG_TIMESTAMP_FMT g)
      end
  end.

(** [random.randint(a, b)] is [a + _randbelow(b - a + 1)]; [below] is the
    random source, with [0 <= below n < n]. *)
Definition randint (below : Z -> Z) (a b : Z) : Z := (a + below (b - a + 1))%Z.

(** [timestamp_soon(a=1, b=5)]: the body draws from 1..5 and does not
    read [a] and [b]. *)
Definition timestamp_soon (g : globals) (now : datetime) (below : Z -> Z)
           (a b : Z) : option string :=
  timestamp g now (randint below 1 5).

(** *** configure_logging *)

Definition DEBUG : Z := 10.
Definition INFO : Z := 20.
Definition NOTSET : Z := 0.

Inductive log_target :=
| ToStdout
| ToFile (name mode : string).

Record handler := mkhandler {
  h_target : log_target;
  h_level : Z;
  h_formatter : option string
}.

Record logger := mklogger { l_level : Z; l_handlers : list handler }.

Definition handler_setLevel (h : handler) (level : Z) : handler :=
  mkhandler (h_target h) level (h_formatter h).

Definition handler_setFormatter (h : handler) (f : string) : handler :=
  mkhandler (h_target h) (h_level h) (Some f).

(** [configure_logging()], with the value of [__debug__], the reading
    [today] of the clock and the root logger before the call. *)
Definition configure_logging (debug : bool) (today : datetime) (root : logger)
  : logger :=
  let formatter := "%(asctime)s - [%(levelname)s] - %(message)s" in
  let todaystr := isoformat_date today in
  let stdout_handler := mkhandler ToStdout NOTSET None in
  let file_handler := mkhandler (ToFile (todaystr ++ ".log") "w") NOTSET None in
  let level := if debug then DEBUG else INFO in
  let root_level := level in
  let stdout_handler := handler_setLevel stdout_handler level in
  let file_handler := handler_setLevel file_handler level in
  let stdout_handler := handler_setLevel stdout_handler DEBUG in
  let file_handler := handler_setLevel file_handler DEBUG in
  let stdout_handler := handler_setFormatter stdout_handler formatter in
  let file_handler := handler_setFormatter file_handler formatter in
  mklogger root_level (l_handlers root ++ [stdout_handler; file_handler])%list.

(** The handlers of the root logger that write a record of level
    [levelno]: the logger's own level first ([isEnabledFor]), then each
    handler's ([callHandlers]). *)
Definition handlers_writing (root : logger) (levelno : Z) : list handler :=
  if (l_level root <=? levelno)%Z
  then filter (fun h => (h_level h <=? levelno)%Z) (l_handlers root)
  else [].

(** *** test.py: the body of the loop of test_timestamp_soon *)

(** [soon = strptime(timestamp_soon(), fmt)] and the value handed to
    [assertTrue]; [None] when the body raises before it. *)
Definition test_timestamp_soon_body (g : globals) (ten_seconds_from_now : datetime)
           (now : datetime) (below : Z -> Z) : option bool :=
  match timestamp_soon g now below 1 5 with
  | None => None
  | Some text =>
      match strptime text (CONFIG_TIMESTAMP_FMT g) with
      | inl _ => None
      | inr soon => Some (datetime_lt soon ten_seconds_from_now)
      end
  end.

(** *** Reading strings *)

(** The number of separators in a string, and [sep.join(parts)]. *)
Fixpoint count_char (c : ascii) (s : string) : nat :=
  match s with
  | EmptyString => 0
  | String c' s' => (if Ascii.eqb c' c then 1 else 0) + count_char c s'
  end.

Fixpoint join (sep : ascii) (parts : list string) : string :=
  match parts with
  | [] => EmptyString
  | [p] => p
  | p :: rest => p ++ String sep (join sep rest)
  end.

End ReqschedMore.
Import ReqschedMore.
(* ===================================================================== *)
(** ** Exceptions raised and caught *)
(* ===================================================================== *)

Lemma strptime_raises_ValueError data fmt e :
  strptime data fmt = inl e -> isinstance e ValueError = true.
Proof.
  unfold strptime. intros H.
  destruct (compile fmt) as [r|]; [|now inversion H].
  destruct (re_match r (chars data)) as [[n d]|]; [|now inversion H].
  destruct (negb _); [now inversion H|].
  destruct (check_time_fields _ _ _); now inversion H.
Qed.

Lemma parse_timestring_raises_ValueError g w i t e :
  parse_timestring g w i t = inl e -> isinstance e ValueError = true.
Proof.
  unfold parse_timestring. intros H.
  destruct (strptime t (CONFIG_TIMESTAMP_FMT g)) as [e'|dt] eqn:E; [|discriminate].
  inversion H; subst. eapply strptime_raises_ValueError; eauto.
Qed.

Lemma raised_is_Exception f : isinstance (raised f) Exception = true.
Proof. destruct f; reflexivity. Qed.

(** The two [except] clauses of the second loop do not reach below
    [Exception]: an interrupt would pass through them. *)
Lemma drain_step_passes_interrupt errors msg :
  drain_step errors (inl (mkexn KeyboardInterrupt 0 msg))
  = inl (mkexn KeyboardInterrupt 0 msg).
Proof. reflexivity. Qed.

Lemma drain_step_catches errors f :
  drain_step errors (inl (raised f)) = inr (errors + 1)%Z.
Proof. destruct f; reflexivity. Qed.

(* ===================================================================== *)
(** ** The first loop *)
(* ===================================================================== *)

Lemma intake_step_classify g w i st t :
  intake_step g w i st t =
  inr (match parse_timestring g w i t with
       | inl _ => skip st
       | inr dt => if time_lt (dt_time dt) (dt_time (now_at w i))
                   then skip st else launch g st dt
       end).
Proof.
  unfold intake_step.
  destruct (parse_timestring g w i t) as [e|dt] eqn:E.
  - now rewrite (parse_timestring_raises_ValueError _ _ _ _ E).
  - now destruct (time_lt _ _).
Qed.

Lemma launch_fields g st dt :
  passes (launch g st dt) = (passes st + 1)%Z /\
  skips (launch g st dt) = skips st /\
  tasks (launch g st dt) =
    (tasks st ++ [mktask dt (fst (wait_and_request_defaults g))
                            (snd (wait_and_request_defaults g))])%list.
Proof. unfold launch. destruct (wait_and_request_defaults g); simpl; auto. Qed.

(** The loop never raises, and its counters are the counts of the three
    kinds of entries. *)
Lemma intake_loop_counts g w timestamps :
  forall i st, exists st',
    intake_loop g w i timestamps st = inr st' /\
    passes st' = (passes st + count_kind Launchable g w i timestamps)%Z /\
    skips st' = (skips st + count_kind Unparsable g w i timestamps
                          + count_kind AlreadyPast g w i timestamps)%Z /\
    Z.of_nat (List.length (tasks st')) =
      (Z.of_nat (List.length (tasks st)) + count_kind Launchable g w i timestamps)%Z.
Proof.
  induction timestamps as [|t rest IH]; intros i st; cbn [intake_loop count_kind].
  - exists st. repeat split; lia.
  - rewrite intake_step_classify. unfold classify.
    destruct (parse_timestring g w i t) as [e|dt];
      [|destruct (time_lt (dt_time dt) (dt_time (now_at w i)))];
      cbn [kind_eqb].
    + destruct (IH (S i) (skip st)) as (st' & E & P & S' & T).
      exists st'. unfold skip in *. cbn [passes skips tasks] in *.
      repeat split; auto; lia.
    + destruct (IH (S i) (skip st)) as (st' & E & P & S' & T).
      exists st'. unfold skip in *. cbn [passes skips tasks] in *.
      repeat split; auto; lia.
    + destruct (IH (S i) (launch g st dt)) as (st' & E & P & S' & T).
      destruct (launch_fields g st dt) as (L1 & L2 & L3).
      exists st'. rewrite L1, L2 in *. rewrite L3, length_app in T.
      cbn [List.length] in T. repeat split; auto; lia.
Qed.

Lemma count_kind_total g w timestamps :
  forall i,
    (count_kind Unparsable g w i timestamps + count_kind AlreadyPast g w i timestamps
     + count_kind Launchable g w i timestamps = Z.of_nat (List.length timestamps))%Z.
Proof.
  induction timestamps as [|t rest IH]; intros i.
  - reflexivity.
  - cbn [count_kind List.length]. specialize (IH (S i)).
    destruct (classify g w i t); simpl kind_eqb; cbv iota; lia.
Qed.

Lemma count_kind_nonneg c g w timestamps :
  forall i, (0 <= count_kind c g w i timestamps)%Z.
Proof.
  induction timestamps as [|t rest IH]; intros i; simpl; [lia|].
  specialize (IH (S i)). destruct (kind_eqb _ _); lia.
Qed.

(** Every launched task carries the url and the timeout kept with
    [wait_and_request] when the module was loaded. *)
Lemma intake_loop_task_defaults g w timestamps :
  forall i st st',
    intake_loop g w i timestamps st = inr st' ->
    Forall (fun t => task_url t = fst (wait_and_request_defaults g) /\
                     task_timeout t = snd (wait_and_request_defaults g)) (tasks st) ->
    Forall (fun t => task_url t = fst (wait_and_request_defaults g) /\
                     task_timeout t = snd (wait_and_request_defaults g)) (tasks st').
Proof.
  induction timestamps as [|t rest IH]; intros i st st' H F; simpl in H.
  - now inversion H; subst.
  - rewrite intake_step_classify in H.
    eapply IH; [exact H|].
    destruct (parse_timestring g w i t) as [e|dt]; [exact F|].
    destruct (time_lt _ _); [exact F|].
    destruct (launch_fields g st dt) as (_ & _ & L3). rewrite L3.
    apply Forall_app; split; [exact F|]. constructor; [|constructor]. now simpl.
Qed.

(* ===================================================================== *)
(** ** The tasks and the second loop *)
(* ===================================================================== *)

Lemma insert_by_perm (A : Type) (key : A -> Z) (x : A) (l : list A) :
  Permutation (insert_by key x l) (x :: l).
Proof.
  induction l as [|y l IH]; simpl.
  - apply Permutation_refl.
  - destruct (key x <? key y)%Z.
    + apply Permutation_refl.
    + eapply Permutation_trans; [apply perm_skip, IH | apply perm_swap].
Qed.

(** [as_completed] hands out every task once, whatever the order. *)
Lemma as_completed_perm (A : Type) (w : world) (runs : list (nat * A)) :
  Permutation (as_completed w runs) runs.
Proof.
  unfold as_completed. induction runs as [|r runs IH]; simpl.
  - apply Permutation_refl.
  - eapply Permutation_trans; [apply insert_by_perm | apply perm_skip, IH].
Qed.

Lemma filter_length_perm (A : Type) (f : A -> bool) (l l' : list A) :
  Permutation l l' ->
  List.length (filter f l) = List.length (filter f l').
Proof.
  induction 1; simpl; auto.
  - destruct (f x); simpl; auto.
  - destruct (f x), (f y); simpl; auto.
  - congruence.
Qed.

Lemma do_request_catchable w k u timeout :
  catchable (snd (_do_request w k u timeout)).
Proof.
  unfold _do_request. destruct (urlopen w k _); simpl; auto.
  apply raised_is_Exception.
Qed.

Lemma wait_and_request_result w k dt u timeout :
  snd (wait_and_request w k dt u timeout) = snd (_do_request w k u timeout).
Proof.
  unfold wait_and_request. now destruct (_do_request w k u timeout).
Qed.

Lemma wait_and_request_events w k dt u timeout :
  fst (wait_and_request w k dt u timeout) =
  (asyncio_sleep (sub_microseconds dt (task_now w k))
   ++ [EvGET (mkrequest u "Mozilla/5.0" timeout)])%list.
Proof.
  unfold wait_and_request, _do_request. now destruct (urlopen w k _).
Qed.

Lemma run_tasks_catchable w ts :
  forall k, Forall catchable (map (fun r => snd (snd r)) (run_tasks w k ts)).
Proof.
  induction ts as [|t ts IH]; intros k; simpl; constructor; auto.
  rewrite wait_and_request_result. apply do_request_catchable.
Qed.

Lemma run_tasks_length w ts :
  forall k, List.length (run_tasks w k ts) = List.length ts.
Proof. induction ts; intros; simpl; auto. Qed.

(** The second loop catches whatever a task raises and counts it. *)
Lemma drain_counts awaited :
  forall errors,
    Forall catchable awaited ->
    drain awaited errors =
    inr (errors + Z.of_nat (List.length (filter failed awaited)))%Z.
Proof.
  induction awaited as [|a rest IH]; intros errors F; cbn [drain filter].
  - cbn [List.length]. f_equal. lia.
  - inversion F as [|? ? Ha Hrest]; subst.
    destruct a as [e|c]; cbn [drain_step failed].
    + simpl in Ha.
      destruct (isinstance e HTTPError);
        [|rewrite Ha]; rewrite (IH _ Hrest); cbn [List.length]; f_equal; lia.
    + apply (IH _ Hrest).
Qed.

Lemma filter_length_le (A : Type) (f : A -> bool) (l : list A) :
  (List.length (filter f l) <= List.length l)%nat.
Proof.
  induction l as [|x l IH]; simpl; [lia|]. destruct (f x); simpl; lia.
Qed.

Lemma failed_count_bounds w ts :
  (0 <= failed_count w ts <= Z.of_nat (List.length ts))%Z.
Proof.
  unfold failed_count, outcomes.
  pose proof (filter_length_le failed (map (fun r => snd (snd r)) (run_tasks w 0 ts))) as H.
  rewrite length_map, run_tasks_length in H. lia.
Qed.

(** [start] as a whole: it returns, with the counters of the first loop
    and the number of failed tasks. *)
Lemma start_returns g w timestamps :
  exists st,
    intake_loop g w 0 timestamps intake_init = inr st /\
    start g w timestamps =
      (inr (passes st, skips st, failed_count w (tasks st)),
       map (fun r => fst (snd r)) (run_tasks w 0 (tasks st))).
Proof.
  destruct (intake_loop_counts g w timestamps 0 intake_init) as (st & E & _).
  exists st. split; [exact E|]. unfold start. rewrite E.
  set (runs := run_tasks w 0 (tasks st)).
  assert (P : Permutation (map (fun r => snd (snd r)) (as_completed w runs))
                          (map (fun r => snd (snd r)) runs))
    by apply Permutation_map, as_completed_perm.
  rewrite drain_counts.
  - rewrite (filter_length_perm failed P). reflexivity.
  - eapply Permutation_Forall; [apply Permutation_sym, P|].
    apply run_tasks_catchable.
Qed.

(** The first loop reads the clock only. *)
Lemma intake_loop_clock g w w' timestamps :
  (forall i, today_at w' i = today_at w i) ->
  (forall i, now_at w' i = now_at w i) ->
  forall i st, intake_loop g w' i timestamps st = intake_loop g w i timestamps st.
Proof.
  intros Ht Hn. induction timestamps as [|t rest IH]; intros i st; simpl; auto.
  unfold intake_step, parse_timestring. rewrite Ht, Hn.
  destruct (strptime t (CONFIG_TIMESTAMP_FMT g)) as [e|dt].
  - destruct (isinstance e ValueError); auto.
  - destruct (time_lt _ _); auto.
Qed.


Lemma time_lt_irrefl t : time_lt t t = false.
Proof.
  unfold time_lt. rewrite !Z.ltb_irrefl, !Z.eqb_refl. reflexivity.
Qed.

(* ===================================================================== *)
(** ** The scheduler's counters *)
(* ===================================================================== *)

(** C3: the first component of the triple is the number of tasks
    launched.  It is fixed when the first loop ends and equals the number
    of tasks created; the third component is the number of those tasks
    whose outcome is a failure.  A failing task is thus counted in both,
    and whatever the network answers and in whatever order the tasks
    finish, the launched tally is the same. *)
Theorem C3_launched_tally_keeps_failed_tasks g w timestamps :
  exists st,
    intake_loop g w 0 timestamps intake_init = inr st /\
    passes st = Z.of_nat (List.length (tasks st)) /\
    fst (start g w timestamps) =
      inr (passes st, skips st, failed_count w (tasks st)) /\
    List.length (snd (start g w timestamps)) = List.length (tasks st) /\
    forall net fin,
      let w' := mkworld (today_at w) (now_at w) (task_now w) net fin in
      fst (start g w' timestamps) =
        inr (passes st, skips st, failed_count w' (tasks st)).
Proof.
  destruct (start_returns g w timestamps) as (st & E & R).
  destruct (intake_loop_counts g w timestamps 0 intake_init) as (st2 & E2 & P & _ & T).
  rewrite E in E2. inversion E2; subst st2. clear E2.
  exists st. split; [exact E|]. split.
  { cbn [intake_init passes tasks List.length] in P, T. lia. }
  split; [now rewrite R|]. split.
  { rewrite R. cbn [snd]. now rewrite length_map, run_tasks_length. }
  intros net fin w'.
  destruct (start_returns g w' timestamps) as (st' & E' & R').
  rewrite (intake_loop_clock g w w') in E' by reflexivity.
  rewrite E in E'. inversion E'; subst st'. now rewrite R'.
Qed.

(** C4: every entry of a batch of N strings adds one to exactly one of
    the two counters: launched + skipped = N, skipped is the number of
    unparsable entries plus the number of entries already past, launched
    is the number of the remaining ones.  No entry ends the loop: the
    counts range over the whole batch, and [start] returns. *)
Theorem C4_launched_plus_skipped_is_batch_size g w timestamps :
  exists p s e,
    fst (start g w timestamps) = inr (p, s, e) /\
    (p + s = Z.of_nat (List.length timestamps))%Z /\
    s = (count_kind Unparsable g w 0 timestamps
         + count_kind AlreadyPast g w 0 timestamps)%Z /\
    p = count_kind Launchable g w 0 timestamps.
Proof.
  destruct (start_returns g w timestamps) as (st & E & R).
  destruct (intake_loop_counts g w timestamps 0 intake_init) as (st2 & E2 & P & S' & _).
  rewrite E in E2. inversion E2; subst st2. clear E2.
  exists (passes st), (skips st), (failed_count w (tasks st)).
  pose proof (count_kind_total g w timestamps 0) as Tot.
  cbn [intake_init passes skips] in P, S'.
  rewrite R. cbn [fst]. repeat split; lia.
Qed.

(** C5: whatever a launched task raises (an HTTP error or any other error
    of the request) is caught by the [try] around [await] in the second
    loop and adds one to the error counter; nothing leaves the loop, so
    [start] returns its triple for every batch and every behaviour of the
    network, with the error counter equal to the number of failed tasks. *)
Theorem C5_task_failures_caught_and_counted g w timestamps :
  (forall errors f, drain_step errors (inl (raised f)) = inr (errors + 1)%Z) /\
  (forall ts errors,
      drain (map (fun r => snd (snd r)) (as_completed w (run_tasks w 0 ts))) errors
      = inr (errors + failed_count w ts)%Z) /\
  exists st,
    intake_loop g w 0 timestamps intake_init = inr st /\
    fst (start g w timestamps) =
      inr (passes st, skips st, failed_count w (tasks st)).
Proof.
  split; [apply drain_step_catches|]. split.
  - intros ts errors.
    assert (P : Permutation
                  (map (fun r => snd (snd r)) (as_completed w (run_tasks w 0 ts)))
                  (map (fun r => snd (snd r)) (run_tasks w 0 ts)))
      by apply Permutation_map, as_completed_perm.
    rewrite drain_counts.
    + now rewrite (filter_length_perm failed P).
    + eapply Permutation_Forall; [apply Permutation_sym, P|].
      apply run_tasks_catchable.
  - destruct (start_returns g w timestamps) as (st & E & R).
    exists st. split; [exact E|]. now rewrite R.
Qed.

(** C10: in the triple that [start] returns the error count lies between
    0 and the launched count. *)
Theorem C10_errored_at_most_launched g w timestamps :
  exists p s e,
    fst (start g w timestamps) = inr (p, s, e) /\ (0 <= e <= p)%Z.
Proof.
  destruct (start_returns g w timestamps) as (st & E & R).
  destruct (intake_loop_counts g w timestamps 0 intake_init) as (st2 & E2 & P & _ & T).
  rewrite E in E2. inversion E2; subst st2. clear E2.
  exists (passes st), (skips st), (failed_count w (tasks st)).
  rewrite R. split; [reflexivity|].
  pose proof (failed_count_bounds w (tasks st)) as B.
  cbn [intake_init passes tasks List.length] in P, T. lia.
Qed.

(* ===================================================================== *)
(** ** Entries before, at and after the current time *)
(* ===================================================================== *)



(** C9: an entry whose time of day equals the time read at its intake is
    launched: the test is a strict comparison, false on equal times, so
    the launch counter grows by one and a task for the entry is created. *)
Theorem C9_equal_time_is_launched g w i st t dt :
  parse_timestring g w i t = inr dt ->
  dt_time dt = dt_time (now_at w i) ->
  time_lt (dt_time dt) (dt_time (now_at w i)) = false /\
  intake_step g w i st t =
    inr (mkintake (passes st + 1) (skips st)
           (tasks st ++ [mktask dt (fst (wait_and_request_defaults g))
                                   (snd (wait_and_request_defaults g))])).
Proof.
  intros Hp Heq.
  assert (F : time_lt (dt_time dt) (dt_time (now_at w i)) = false)
    by (rewrite Heq; apply time_lt_irrefl).
  split; [exact F|].
  rewrite intake_step_classify, Hp, F. unfold launch.
  now destruct (wait_and_request_defaults g).
Qed.

Lemma C9_equal_time_is_launched_witness :
  parse_timestring module_load (world_at noon) 0 "12:00:00" = inr noon /\
  dt_time noon = dt_time (now_at (world_at noon) 0) /\
  intake_step module_load (world_at noon) 0 intake_init "12:00:00" =
    inr (mkintake 1 0 [mktask noon "http://ifconfig.co/" 1]).
Proof.
  split; [vm_compute; reflexivity|]. split; [reflexivity|].
  exact (proj2 (@C9_equal_time_is_launched module_load (world_at noon) 0 intake_init
                  "12:00:00" noon ltac:(vm_compute; reflexivity) ltac:(reflexivity))).
Defined.

Lemma run_tasks_gets w ts :
  forall k,
    map gets (map (fun r => fst (snd r)) (run_tasks w k ts)) =
    map (fun t => [mkrequest (task_url t) "Mozilla/5.0" (task_timeout t)]) ts.
Proof.
  induction ts as [|t ts IH]; intros k; cbn [run_tasks map]; [reflexivity|].
  rewrite IH. f_equal. cbn [snd fst]. rewrite wait_and_request_events.
  unfold asyncio_sleep. destruct (_ <=? 0)%Z; reflexivity.
Qed.

Lemma strptime_last_second :
  strptime "23:59:59" "%H:%M:%S" = inr (mkdatetime 1900 1 1 23 59 59 0).
Proof. vm_compute. reflexivity. Qed.

(** C2, as the code has it: at 12:00:00 the entry "23:59:59" is not yet
    past, since 23:59:59 is later in the day than 12:00:00.  The batch
    ["23:59:59"] gives launched = 1 and skipped = 0, and its one task
    issues one GET, to the url kept with [wait_and_request]. *)
Theorem C2_last_second_at_noon_is_launched g w :
  CONFIG_TIMESTAMP_FMT g = "%H:%M:%S" ->
  hour (now_at w 0) = 12%Z ->
  minute (now_at w 0) = 0%Z ->
  second (now_at w 0) = 0%Z ->
  exists e,
    fst (start g w ["23:59:59"]) = inr (1, 0, e)%Z /\
    (0 <= e <= 1)%Z /\
    map gets (snd (start g w ["23:59:59"])) =
      [[mkrequest (fst (wait_and_request_defaults g)) "Mozilla/5.0"
                  (snd (wait_and_request_defaults g))]].
Proof.
  intros Hfmt Hh Hm Hs.
  destruct (start_returns g w ["23:59:59"]) as (st & E & R).
  cbn [intake_loop] in E. rewrite intake_step_classify in E.
  unfold parse_timestring in E. rewrite Hfmt, strptime_last_second in E.
  unfold time_lt, dt_time, replace_date in E.
  cbn [t_hour t_minute t_second t_microsecond hour minute second microsecond] in E.
  rewrite Hh in E. cbn in E.
  destruct (launch_fields g intake_init
              (mkdatetime (year (today_at w 0)) (month (today_at w 0))
                          (day (today_at w 0)) 23 59 59 0)) as (L1 & L2 & L3).
  inversion E as [E']. clear E.
  exists (failed_count w (tasks st)).
  pose proof (failed_count_bounds w (tasks st)) as B.
  rewrite R. cbn [fst snd]. rewrite run_tasks_gets.
  rewrite <- E' in *. rewrite L1, L2, L3 in *.
  cbn [intake_init passes skips tasks app List.length map task_url
       task_timeout] in *.
  split; [reflexivity|]. split; [lia|reflexivity].
Qed.

Lemma C2_last_second_at_noon_is_launched_witness :
  exists e,
    fst (start module_load (world_at noon) ["23:59:59"]) = inr (1, 0, e)%Z /\
    (0 <= e <= 1)%Z /\
    map gets (snd (start module_load (world_at noon) ["23:59:59"])) =
      [[mkrequest "http://ifconfig.co/" "Mozilla/5.0" 1]].
Proof.
  exact (@C2_last_second_at_noon_is_launched module_load (world_at noon)
           eq_refl eq_refl eq_refl eq_refl).
Defined.

(** C2, as the specification has it, fails: at noon the batch
    ["23:59:59"] is launched and its request is made. *)
Lemma C2_counterexample :
  start module_load (world_at noon) ["23:59:59"] =
    (inr (1, 0, 0)%Z,
     [[EvTimer 43199000000;
       EvGET (mkrequest "http://ifconfig.co/" "Mozilla/5.0" 1)]]) /\
  ~ (exists e, fst (start module_load (world_at noon) ["23:59:59"])
               = inr (0, 1, e)%Z).
Proof.
  assert (E : start module_load (world_at noon) ["23:59:59"] =
              (inr (1, 0, 0)%Z,
               [[EvTimer 43199000000;
                 EvGET (mkrequest "http://ifconfig.co/" "Mozilla/5.0" 1)]]))
    by (vm_compute; reflexivity).
  split; [exact E|]. rewrite E. intros [e H]. discriminate H.
Qed.

(* ===================================================================== *)
(** ** The delayed task *)
(* ===================================================================== *)

(** C8: when the wait computed at the start of the task (target minus
    now) is zero or negative, the task does not fail on it: the sleep is
    a bare yield, after which the fetcher is called once, and the task's
    outcome is the fetcher's. *)
Theorem C8_nonpositive_wait_fetches_once w k dt u timeout :
  (sub_microseconds dt (task_now w k) <= 0)%Z ->
  wait_and_request w k dt u timeout =
    ([EvYield; EvGET (mkrequest u "Mozilla/5.0" timeout)],
     snd (_do_request w k u timeout)) /\
  gets (fst (wait_and_request w k dt u timeout)) =
    [mkrequest u "Mozilla/5.0" timeout].
Proof.
  intros H.
  assert (E : wait_and_request w k dt u timeout =
              ([EvYield; EvGET (mkrequest u "Mozilla/5.0" timeout)],
               snd (_do_request w k u timeout))).
  { unfold wait_and_request, asyncio_sleep.
    apply Z.leb_le in H. rewrite H.
    unfold _do_request. destruct (urlopen w k _); reflexivity. }
  split; [exact E|]. rewrite E. reflexivity.
Qed.

Lemma C8_nonpositive_wait_fetches_once_witness :
  (sub_microseconds midnight (task_now (world_down noon) 0) <= 0)%Z /\
  wait_and_request (world_down noon) 0 midnight "http://ifconfig.co/" 1 =
    ([EvYield; EvGET (mkrequest "http://ifconfig.co/" "Mozilla/5.0" 1)],
     inl (mkexn TimeoutError 0 "timed out")).
Proof.
  split; [vm_compute; discriminate|].
  exact (proj1 (@C8_nonpositive_wait_fetches_once (world_down noon) 0 midnight
                  "http://ifconfig.co/" 1%Z ltac:(vm_compute; discriminate))).
Defined.

(* ===================================================================== *)
(** ** The command line *)
(* ===================================================================== *)

Lemma parse_cli_keeps_defaults args g :
  wait_and_request_defaults (fst (_parse_cli args g)) = wait_and_request_defaults g /\
  CONFIG_TIMESTAMP_FMT (fst (_parse_cli args g)) = CONFIG_TIMESTAMP_FMT g.
Proof.
  unfold _parse_cli. cbn [fst].
  destruct (arg_url args) as [u|]; [|auto].
  destruct (truthy (Some u)); auto.
Qed.

Lemma parse_cli_sets_CONFIG_URL u ts g :
  u <> "" ->
  CONFIG_URL (fst (_parse_cli (mknamespace ts (Some u)) g)) = u.
Proof.
  intros H. unfold _parse_cli. cbn [fst arg_url truthy].
  destruct (String.eqb_spec u ""); [contradiction|reflexivity].
Qed.

(** Whatever [--url] is given, each launched task makes one request, and
    makes it to the url that was the value of [CONFIG.URL] when
    [wait_and_request] was defined. *)
Lemma main_requests_go_to_default args w :
  Forall (fun rs => rs = [mkrequest "http://ifconfig.co/" "Mozilla/5.0" 1])
         (map gets (snd (snd (main args w)))).
Proof.
  unfold main.
  destruct (_parse_cli args module_load) as [g l] eqn:E. cbn [snd].
  destruct (parse_cli_keeps_defaults args module_load) as [D _].
  rewrite E in D. cbn [fst] in D.
  destruct (start_returns g w l) as (st & Ei & R). rewrite R. cbn [snd].
  rewrite run_tasks_gets.
  pose proof (intake_loop_task_defaults g w l 0 intake_init Ei (Forall_nil _)) as F.
  rewrite D in F. cbn [module_load wait_and_request_defaults fst snd] in F.
  apply Forall_map. eapply Forall_impl; [|exact F].
  intros t [Hu Ht]. cbn beta. now rewrite Hu, Ht.
Qed.

(** C1, at the failing input: with [--url http://example.com/] and the
    entry 23:59:59 read at noon, [CONFIG.URL] is set to the override, one
    task is launched, and its GET goes to http://ifconfig.co/. *)
Theorem C1_override_url_is_not_requested :
  main (mknamespace "23:59:59" (Some "http://example.com/")) (world_at noon) =
    (mkglobals "http://example.com/" "%H:%M:%S" ("http://ifconfig.co/", 1%Z),
     (inr (1, 0, 0)%Z,
      [[EvTimer 43199000000;
        EvGET (mkrequest "http://ifconfig.co/" "Mozilla/5.0" 1)]])).
Proof. vm_compute. reflexivity. Qed.

(* ===================================================================== *)
(** ** The time parser *)
(* ===================================================================== *)

Lemma compile_TIMESTAMP_FMT : compile "%H:%M:%S" = Some time_regex.
Proof. reflexivity. Qed.

Lemma firstn_consumed (A : Type) (p rest : list A) :
  firstn (List.length (p ++ rest) - List.length rest) (p ++ rest) = p.
Proof.
  rewrite length_app.
  replace (List.length p + List.length rest - List.length rest)%nat
    with (List.length p + 0)%nat by lia.
  rewrite firstn_app_2. cbn [firstn]. apply app_nil_r.
Qed.

(** A successful run of the matcher consumed a text of the expression and
    went on with the text after it. *)
Lemma rmatch_sound (A : Type) (r : regex) :
  forall s g (k : list N -> groups -> option A) x,
    rmatch r s g k = Some x ->
    exists p rest g',
      s = (p ++ rest)%list /\ matches r p g g' /\ k rest g' = Some x.
Proof.
  induction r as [c|lo hi| |r1 IH1 r2 IH2|r1 IH1 r2 IH2|n r IH];
    intros s g k x H; cbn [rmatch] in H.
  - destruct s as [|c' s']; [discriminate|].
    destruct (N.eqb_spec (N_of_ascii c) c'); [subst|discriminate].
    exists [N_of_ascii c], s', g. repeat split; auto. constructor.
  - destruct s as [|c' s']; [discriminate|].
    destruct (in_class lo hi c') eqn:E; [|discriminate].
    exists [c'], s', g. repeat split; auto. now constructor.
  - destruct s as [|c' s']; [discriminate|].
    destruct (is_digit c') eqn:E; [|discriminate].
    exists [c'], s', g. repeat split; auto. now constructor.
  - apply IH1 in H. destruct H as (p1 & rest1 & g1 & -> & M1 & H).
    apply IH2 in H. destruct H as (p2 & rest & g2 & -> & M2 & H).
    exists (p1 ++ p2)%list, rest, g2. rewrite app_assoc.
    repeat split; auto. econstructor; eauto.
  - destruct (rmatch r1 s g k) as [y|] eqn:E.
    + inversion H; subst y. apply IH1 in E.
      destruct E as (p & rest & g' & -> & M & Hk).
      exists p, rest, g'. repeat split; auto. now apply M_AltL.
    + apply IH2 in H. destruct H as (p & rest & g' & -> & M & Hk).
      exists p, rest, g'. repeat split; auto. now apply M_AltR.
  - apply IH in H. destruct H as (p & rest & g' & -> & M & Hk).
    rewrite firstn_consumed in Hk.
    exists p, rest, ((n, p) :: g'). repeat split; auto. now constructor.
Qed.

(** *** Decimal digits *)

Lemma decimal_in_bounds zeros c v :
  decimal_in zeros c = Some v -> (0 <= v <= 9)%Z.
Proof.
  induction zeros as [|z zeros IH]; cbn [decimal_in]; [discriminate|].
  destruct ((z <=? c) && (c <? z + 10))%N eqn:E; [|exact IH].
  apply andb_true_iff in E as [E1 E2].
  apply N.leb_le in E1. apply N.ltb_lt in E2.
  intros H. inversion H. lia.
Qed.

Lemma digit_value_bounds c :
  is_digit c = true -> (0 <= digit_value c <= 9)%Z.
Proof.
  unfold is_digit, digit_value, unicode_decimal.
  destruct (decimal_in decimal_zeros c) as [v|] eqn:E; [|discriminate].
  intros _. eapply decimal_in_bounds; eauto.
Qed.

(** The digits 0..9 of ASCII are decimal digits, with their values. *)
Lemma ascii_digit_decimal c :
  ascii_digit c = true -> unicode_decimal c = Some (Z.of_N c - 48)%Z.
Proof.
  unfold ascii_digit. rewrite andb_true_iff, !N.leb_le. intros [Lo Hi].
  change (unicode_decimal c)
    with (if ((48 <=? c) && (c <? 48 + 10))%N then Some (Z.of_N (c - 48))
          else decimal_in (tl decimal_zeros) c).
  assert (E : ((48 <=? c) && (c <? 48 + 10))%N = true)
    by (apply andb_true_iff; split; [apply N.leb_le|apply N.ltb_lt]; lia).
  rewrite E. f_equal. lia.
Qed.

Lemma ascii_digit_is_digit c : ascii_digit c = true -> is_digit c = true.
Proof.
  intros H. unfold is_digit. now rewrite (ascii_digit_decimal _ H).
Qed.

Lemma ascii_digit_value c :
  ascii_digit c = true -> digit_value c = (Z.of_N c - 48)%Z.
Proof.
  intros H. unfold digit_value. now rewrite (ascii_digit_decimal _ H).
Qed.

Lemma in_class_iff lo hi c :
  in_class lo hi c = true <-> (N_of_ascii lo <= c <= N_of_ascii hi)%N.
Proof. unfold in_class. now rewrite andb_true_iff, !N.leb_le. Qed.

Lemma ascii_digit_iff c : ascii_digit c = true <-> (48 <= c <= 57)%N.
Proof. unfold ascii_digit. now rewrite andb_true_iff, !N.leb_le. Qed.

Lemma in_class_ascii_digit lo hi c :
  in_class lo hi c = true ->
  ascii_digit (N_of_ascii lo) = true -> ascii_digit (N_of_ascii hi) = true ->
  ascii_digit c = true.
Proof. rewrite in_class_iff, !ascii_digit_iff. lia. Qed.

Lemma colon_not_digit : is_digit colon = false /\ ascii_digit colon = false.
Proof. split; reflexivity. Qed.

Lemma int_of_two d1 d2 : int_of [d1; d2] = (10 * digit_value d1 + digit_value d2)%Z.
Proof. unfold int_of. cbn [fold_left]. lia. Qed.

Lemma check_time_fields_bounds h m s :
  check_time_fields h m s = true <->
  (0 <= h <= 23 /\ 0 <= m <= 59 /\ 0 <= s <= 59)%Z.
Proof.
  unfold check_time_fields. rewrite !andb_true_iff, !Z.leb_le. lia.
Qed.

Lemma field_value_nonneg f : field_text f = true -> (0 <= int_of f)%Z.
Proof.
  destruct f as [|d1 [|d2 [|d3 f]]]; cbn [field_text]; try discriminate.
  - intros H. apply digit_value_bounds in H. unfold int_of. cbn [fold_left]. lia.
  - rewrite andb_true_iff. intros [H1 H2].
    apply ascii_digit_is_digit in H1.
    apply digit_value_bounds in H1, H2. rewrite int_of_two. lia.
Qed.

(** *** The texts of the three groups *)

Ltac invert_matches :=
  repeat match goal with
         | H : matches (Cat _ _) _ _ _ |- _ => inversion H; subst; clear H
         | H : matches (Alt _ _) _ _ _ |- _ => inversion H; subst; clear H
         | H : matches (Group _ _) _ _ _ |- _ => inversion H; subst; clear H
         | H : matches (Chr _) _ _ _ |- _ => inversion H; subst; clear H
         | H : matches (Cls _ _) _ _ _ |- _ => inversion H; subst; clear H
         | H : matches Digit _ _ _ |- _ => inversion H; subst; clear H
         end.

(** Facts on the characters of a text, as inequalities. *)
Ltac class_facts :=
  repeat match goal with
         | H : in_class ?lo ?hi ?c = true |- _ =>
             apply in_class_iff in H;
             let vlo := eval compute in (N_of_ascii lo) in
             let vhi := eval compute in (N_of_ascii hi) in
             change (N_of_ascii lo) with vlo in H;
             change (N_of_ascii hi) with vhi in H
         end.

Lemma hour_regex_texts p g g' :
  matches hour_regex p g g' ->
  field_text p = true /\ twenties_ascii p = true /\ g' = ("H"%char, p) :: g.
Proof.
  unfold hour_regex. intros M. invert_matches; class_facts;
    cbn [app field_text twenties_ascii].
  - change (N_of_ascii "2") with 50%N.
    assert (A : ascii_digit c = true) by (apply ascii_digit_iff; lia).
    rewrite A, (ascii_digit_is_digit _ A). repeat split.
  - assert (A : ascii_digit c = true) by (apply ascii_digit_iff; lia).
    assert (E : (c =? 50)%N = false) by (apply N.eqb_neq; lia).
    match goal with H : is_digit _ = true |- _ => rewrite H end.
    rewrite A, E. repeat split.
  - match goal with H : is_digit _ = true |- _ => rewrite H end.
    repeat split.
Qed.

Lemma minute_regex_texts p g g' :
  matches minute_regex p g g' ->
  field_text p = true /\ g' = ("M"%char, p) :: g.
Proof.
  unfold minute_regex. intros M. invert_matches; class_facts;
    cbn [app field_text].
  - assert (A : ascii_digit c = true) by (apply ascii_digit_iff; lia).
    match goal with H : is_digit _ = true |- _ => rewrite H end.
    rewrite A. repeat split.
  - match goal with H : is_digit _ = true |- _ => rewrite H end.
    repeat split.
Qed.

Lemma second_regex_texts p g g' :
  matches second_regex p g g' ->
  field_text p = true /\ g' = ("S"%char, p) :: g.
Proof.
  unfold second_regex. intros M. invert_matches; class_facts;
    cbn [app field_text].
  - change (N_of_ascii "6") with 54%N.
    assert (A : ascii_digit c = true) by (apply ascii_digit_iff; lia).
    rewrite (ascii_digit_is_digit _ A). repeat split.
  - assert (A : ascii_digit c = true) by (apply ascii_digit_iff; lia).
    match goal with H : is_digit _ = true |- _ => rewrite H end.
    rewrite A. repeat split.
  - match goal with H : is_digit _ = true |- _ => rewrite H end.
    repeat split.
Qed.

(** The texts of the program's format: three fields and two colons. *)
Lemma time_regex_texts p g' :
  matches time_regex p [] g' ->
  exists fh fm fs,
    p = (fh ++ colon :: fm ++ colon :: fs)%list /\
    field_text fh = true /\ field_text fm = true /\ field_text fs = true /\
    twenties_ascii fh = true /\
    group_get g' "H" = fh /\ group_get g' "M" = fm /\ group_get g' "S" = fs.
Proof.
  unfold time_regex. intros M.
  inversion M as [| | |? ? fh p1 ? gh ? Mh M1| | |]; subst; clear M.
  inversion M1 as [| | |? ? c1 p2 ? ? ? Mc1 M2| | |]; subst; clear M1.
  inversion M2 as [| | |? ? fm p3 ? gm ? Mm M3| | |]; subst; clear M2.
  inversion M3 as [| | |? ? c2 fs ? ? ? Mc2 Ms| | |]; subst; clear M3.
  inversion Mc1; subst; clear Mc1. inversion Mc2; subst; clear Mc2.
  apply hour_regex_texts in Mh. destruct Mh as (Fh & Th & ->).
  apply minute_regex_texts in Mm. destruct Mm as (Fm & ->).
  apply second_regex_texts in Ms. destruct Ms as (Fs & ->).
  exists fh, fm, fs. cbn [app group_get Ascii.eqb Bool.eqb].
  repeat split; auto.
Qed.

(** What [strptime] accepts is a text of three fields in range. *)
Lemma strptime_inr_fields s dt :
  strptime s "%H:%M:%S" = inr dt ->
  exists fh fm fs,
    chars s = (fh ++ colon :: fm ++ colon :: fs)%list /\
    field_text fh = true /\ field_text fm = true /\ field_text fs = true /\
    twenties_ascii fh = true /\
    check_time_fields (int_of fh) (int_of fm) (int_of fs) = true /\
    dt = mkdatetime 1900 1 1 (int_of fh) (int_of fm) (int_of fs) 0.
Proof.
  unfold strptime. rewrite compile_TIMESTAMP_FMT.
  set (data := chars s).
  destruct (re_match time_regex data) as [[found_end found_dict]|] eqn:M;
    [|discriminate].
  destruct (Nat.eqb (List.length data) found_end) eqn:L; [|discriminate].
  cbn [negb].
  destruct (check_time_fields _ _ _) eqn:C; [|discriminate].
  intros H. inversion H; subst dt. clear H.
  unfold re_match in M. apply rmatch_sound in M.
  destruct M as (p & rest & g' & Hd & Mp & Hk).
  inversion Hk; subst found_end found_dict. clear Hk.
  apply Nat.eqb_eq in L.
  assert (rest = []).
  { rewrite Hd, length_app in L. destruct rest; [reflexivity|].
    cbn [List.length] in L. lia. }
  subst rest. rewrite app_nil_r in Hd.
  destruct (time_regex_texts Mp)
    as (fh & fm & fs & Hp & Fh & Fm & Fs & Th & Gh & Gm & Gs).
  rewrite Gh, Gm, Gs in *.
  exists fh, fm, fs. rewrite Hd, Hp. repeat split; auto.
Qed.

(** *** The matcher on three fields *)

(** If a text of the expression is followed by a text on which the rest
    of the pattern succeeds, the matcher succeeds. *)
Lemma rmatch_complete (A : Type) r p g g' :
  matches r p g g' ->
  forall rest (k : list N -> groups -> option A) x,
    k rest g' = Some x ->
    exists y, rmatch r (p ++ rest) g k = Some y.
Proof.
  induction 1 as [c g|lo hi c g Hc|c g Hc|r1 r2 p1 p2 g g1 g2 M1 IH1 M2 IH2
                  |r1 r2 p g g1 M IH|r1 r2 p g g1 M IH|n r p g g1 M IH];
    intros rest k x Hk; cbn [rmatch app].
  - rewrite N.eqb_refl. eauto.
  - rewrite Hc. eauto.
  - rewrite Hc. eauto.
  - destruct (IH2 rest k x Hk) as [y2 H2].
    rewrite <- app_assoc. eapply IH1. exact H2.
  - destruct (IH rest k x Hk) as [y Hy]. rewrite Hy. eauto.
  - destruct (rmatch r1 (p ++ rest) g k) as [y|]; [eauto|].
    eapply IH; eauto.
  - eapply IH. rewrite firstn_consumed. exact Hk.
Qed.

(** When the rest of the pattern rules out every other text of the
    expression at the head of the input, the matcher goes on after the one
    that remains. *)
Lemma rmatch_determined (A : Type) r p rest g g'
      (k : list N -> groups -> option A) :
  matches r p g g' ->
  (forall p' rest' g'',
      (p' ++ rest' = p ++ rest)%list -> matches r p' g g'' ->
      k rest' g'' <> None -> p' = p /\ g'' = g') ->
  rmatch r (p ++ rest) g k = k rest g'.
Proof.
  intros M U.
  destruct (rmatch r (p ++ rest) g k) as [x|] eqn:E.
  - apply rmatch_sound in E. destruct E as (p' & rest' & g'' & Hs & M' & Hk).
    destruct (U p' rest' g'' (eq_sym Hs) M') as [-> ->]; [congruence|].
    apply app_inv_head in Hs. subst rest'. now rewrite Hk.
  - destruct (k rest g') as [x|] eqn:K; [|reflexivity].
    pose proof (@rmatch_complete A r p g g' M rest k x K) as [y Hy]. congruence.
Qed.

(** The first colon of a text ends its first field. *)
Lemma field_before_colon p q a b :
  field_text p = true -> field_text q = true ->
  (p ++ colon :: a = q ++ colon :: b)%list -> p = q /\ a = b.
Proof.
  intros Fp Fq E. destruct colon_not_digit as [Cd _].
  destruct p as [|p1 [|p2 [|p3 p]]]; cbn [field_text] in Fp; try discriminate;
    destruct q as [|q1 [|q2 [|q3 q]]]; cbn [field_text] in Fq; try discriminate;
    cbn [app] in E; inversion E; subst;
    rewrite ?andb_true_iff in *;
    try (now split);
    exfalso; intuition congruence.
Qed.

Lemma after_colon (A : Type) r s g (k : list N -> groups -> option A) :
  rmatch (Cat (Chr ":") r) s g k <> None -> exists s', s = (colon :: s')%list.
Proof.
  cbn [rmatch]. destruct s as [|c s']; [congruence|].
  destruct (N.eqb_spec (N_of_ascii ":") c) as [<-|]; [eauto|congruence].
Qed.

Lemma hour_regex_matches f g :
  field_text f = true -> twenties_ascii f = true -> (int_of f <= 23)%Z ->
  matches hour_regex f g (("H"%char, f) :: g).
Proof.
  intros F T L. unfold hour_regex. constructor.
  destruct f as [|d1 [|d2 [|d3 f]]]; cbn [field_text] in F; try discriminate.
  - apply M_AltR, M_AltR. now constructor.
  - apply andb_true_iff in F as [F1 F2]. rewrite int_of_two in L.
    pose proof (digit_value_bounds _ F2) as B2.
    rewrite (ascii_digit_value _ F1) in L.
    pose proof (proj1 (ascii_digit_iff d1) F1) as B1.
    destruct (N.eq_dec d1 50) as [E|NE].
    + subst d1. cbn [twenties_ascii] in T.
      change (negb (50 =? 50)%N) with false in T. cbn [orb] in T.
      rewrite (ascii_digit_value _ T) in L.
      pose proof (proj1 (ascii_digit_iff d2) T) as B2'.
      apply M_AltL.
      apply (@M_Cat (Chr "2") (Cls "0" "3") [N_of_ascii "2"] [d2] g g g);
        constructor.
      apply in_class_iff. change (N_of_ascii "0") with 48%N.
      change (N_of_ascii "3") with 51%N. lia.
    + apply M_AltR, M_AltL.
      apply (@M_Cat (Cls "0" "1") Digit [d1] [d2] g g g); constructor; auto.
      apply in_class_iff. change (N_of_ascii "0") with 48%N.
      change (N_of_ascii "1") with 49%N. lia.
Qed.

Lemma minute_regex_matches f g :
  field_text f = true -> (int_of f <= 59)%Z ->
  matches minute_regex f g (("M"%char, f) :: g).
Proof.
  intros F L. unfold minute_regex. constructor.
  destruct f as [|d1 [|d2 [|d3 f]]]; cbn [field_text] in F; try discriminate.
  - apply M_AltR. now constructor.
  - apply andb_true_iff in F as [F1 F2]. rewrite int_of_two in L.
    pose proof (digit_value_bounds _ F2) as B2.
    rewrite (ascii_digit_value _ F1) in L.
    pose proof (proj1 (ascii_digit_iff d1) F1) as B1.
    apply M_AltL.
    apply (@M_Cat (Cls "0" "5") Digit [d1] [d2] g g g); constructor; auto.
    apply in_class_iff. change (N_of_ascii "0") with 48%N.
    change (N_of_ascii "5") with 53%N. lia.
Qed.

(** The last group, after which nothing of the pattern is left: the
    two-digit branches come first, so a field in range is taken whole. *)
Lemma second_regex_last (A : Type) f g (fin : list N -> groups -> A) :
  field_text f = true -> (int_of f <= 59)%Z ->
  rmatch second_regex f g (fun rest g' => Some (fin rest g'))
  = Some (fin [] (("S"%char, f) :: g)).
Proof.
  intros F L. unfold second_regex.
  destruct f as [|d1 [|d2 [|d3 f]]]; cbn [field_text] in F; try discriminate.
  - cbn [rmatch]. rewrite F.
    destruct (N.eqb (N_of_ascii "6") d1); destruct (in_class "0" "5" d1);
      reflexivity.
  - apply andb_true_iff in F as [F1 F2]. rewrite int_of_two in L.
    pose proof (digit_value_bounds _ F2) as B2.
    rewrite (ascii_digit_value _ F1) in L.
    pose proof (proj1 (ascii_digit_iff d1) F1) as B1.
    assert (C : in_class "0" "5" d1 = true).
    { apply in_class_iff. change (N_of_ascii "0") with 48%N.
      change (N_of_ascii "5") with 53%N. lia. }
    assert (E : N.eqb (N_of_ascii "6") d1 = false).
    { apply N.eqb_neq. change (N_of_ascii "6") with 54%N. lia. }
    cbn [rmatch]. rewrite C, F2, E. reflexivity.
Qed.

(** The matcher on three fields in range. *)
Lemma re_match_fields fh fm fs :
  field_text fh = true -> field_text fm = true -> field_text fs = true ->
  twenties_ascii fh = true ->
  (int_of fh <= 23)%Z -> (int_of fm <= 59)%Z -> (int_of fs <= 59)%Z ->
  re_match time_regex (fh ++ colon :: fm ++ colon :: fs)
  = Some (List.length (fh ++ colon :: fm ++ colon :: fs),
          [("S"%char, fs); ("M"%char, fm); ("H"%char, fh)]).
Proof.
  intros Fh Fm Fs Th Lh Lm Ls. unfold re_match, time_regex.
  set (data := (fh ++ colon :: fm ++ colon :: fs)%list).
  cbn [rmatch]. unfold data at 1.
  rewrite (@rmatch_determined _ hour_regex fh _ [] [("H"%char, fh)]).
  - cbn [rmatch]. change (N.eqb (N_of_ascii ":") colon) with true. cbv iota.
    rewrite (@rmatch_determined _ minute_regex fm _ _
               [("M"%char, fm); ("H"%char, fh)]).
    + cbn [rmatch]. change (N.eqb (N_of_ascii ":") colon) with true. cbv iota.
      rewrite (@second_regex_last _ fs _
                 (fun rest g' => ((List.length data - List.length rest)%nat, g'))
                 Fs Ls).
      cbn [List.length]. now rewrite Nat.sub_0_r.
    + now apply minute_regex_matches.
    + intros p' rest' g'' E M K.
      apply minute_regex_texts in M. destruct M as [Fp ->].
      apply after_colon in K. destruct K as [s' ->].
      destruct (@field_before_colon p' fm s' _ Fp Fm E) as [-> _]. auto.
  - now apply hour_regex_matches.
  - intros p' rest' g'' E M K.
    apply hour_regex_texts in M. destruct M as (Fp & _ & ->).
    apply after_colon in K. destruct K as [s' ->].
    destruct (@field_before_colon p' fh s' _ Fp Fh E) as [-> _]. auto.
Qed.

(** [strptime] accepts every text of three fields in range. *)
Lemma strptime_fields_inr s fh fm fs :
  chars s = (fh ++ colon :: fm ++ colon :: fs)%list ->
  field_text fh = true -> field_text fm = true -> field_text fs = true ->
  twenties_ascii fh = true ->
  (int_of fh <= 23)%Z -> (int_of fm <= 59)%Z -> (int_of fs <= 59)%Z ->
  strptime s "%H:%M:%S"
  = inr (mkdatetime 1900 1 1 (int_of fh) (int_of fm) (int_of fs) 0).
Proof.
  intros Hs Fh Fm Fs Th Lh Lm Ls. unfold strptime.
  rewrite compile_TIMESTAMP_FMT, Hs.
  rewrite re_match_fields by assumption.
  rewrite Nat.eqb_refl. cbn [negb group_get Ascii.eqb Bool.eqb].
  assert (C : check_time_fields (int_of fh) (int_of fm) (int_of fs) = true).
  { unfold check_time_fields. rewrite !andb_true_iff, !Z.leb_le.
    pose proof (@field_value_nonneg fh Fh). pose proof (@field_value_nonneg fm Fm).
    pose proof (@field_value_nonneg fs Fs). lia. }
  now rewrite C.
Qed.

Lemma strptime_raises_class data fmt e :
  strptime data fmt = inl e -> cls e = ValueError.
Proof.
  unfold strptime. intros H.
  destruct (compile fmt) as [r|]; [|now inversion H].
  destruct (re_match r (chars data)) as [[n d]|]; [|now inversion H].
  destruct (negb _); [now inversion H|].
  destruct (check_time_fields _ _ _); now inversion H.
Qed.

(** The parser on the module's format, in terms of fields. *)
Lemma parse_timestring_inr_iff g w i s dt :
  CONFIG_TIMESTAMP_FMT g = "%H:%M:%S" ->
  parse_timestring g w i s = inr dt <->
  exists h m sec,
    H_M_S s h m sec /\ (h <= 23)%Z /\ (m <= 59)%Z /\ (sec <= 59)%Z /\
    dt = mkdatetime (year (today_at w i)) (month (today_at w i))
                    (day (today_at w i)) h m sec 0.
Proof.
  intros Hfmt. unfold parse_timestring. rewrite Hfmt. split.
  - destruct (strptime s "%H:%M:%S") as [e|dt0] eqn:E; [discriminate|].
    intros H. inversion H; subst dt. clear H.
    apply strptime_inr_fields in E.
    destruct E as (fh & fm & fs & Hs & Fh & Fm & Fs & Th & C & ->).
    apply check_time_fields_bounds in C.
    exists (int_of fh), (int_of fm), (int_of fs).
    split; [exists fh, fm, fs; repeat split; auto|].
    repeat split; try lia.
  - intros (h & m & sec & (fh & fm & fs & Hs & Fh & Fm & Fs & Th & -> & -> & ->)
            & Lh & Lm & Ls & ->).
    now rewrite (@strptime_fields_inr s fh fm fs Hs) by assumption.
Qed.

Lemma spec_parses_H_M_S s :
  spec_parses s = true ->
  exists h m sec,
    H_M_S s h m sec /\ (h <= 23)%Z /\ (m <= 59)%Z /\ (sec <= 59)%Z.
Proof.
  unfold spec_parses, spec_HH_MM_SS, H_M_S.
  destruct (chars s)
    as [|h1 [|h2 [|c1 [|m1 [|m2 [|c2 [|s1 [|s2 [|x l]]]]]]]]]; try discriminate.
  destruct (ascii_digit h1 && ascii_digit h2 && (c1 =? colon)%N
            && ascii_digit m1 && ascii_digit m2 && (c2 =? colon)%N
            && ascii_digit s1 && ascii_digit s2)
    eqn:E; [|discriminate].
  rewrite !andb_true_iff in E.
  destruct E as [[[[[[[D1 D2] C1] D3] D4] C2] D5] D6].
  apply N.eqb_eq in C1, C2. subst c1 c2.
  rewrite !andb_true_iff, !Z.leb_le. intros [[Lh Lm] Ls].
  exists (int_of [h1; h2]), (int_of [m1; m2]), (int_of [s1; s2]).
  split; [|auto].
  exists [h1; h2], [m1; m2], [s1; s2]. cbn [field_text twenties_ascii app].
  rewrite D1, D2, D3, D5, (ascii_digit_is_digit _ D2),
    (ascii_digit_is_digit _ D4), (ascii_digit_is_digit _ D6).
  rewrite orb_true_r. repeat split; reflexivity.
Qed.

(** Strings with digits outside ASCII: ARABIC-INDIC 1:2:3 is accepted, and
    so is 12:34:56 with ARABIC-INDIC second digits; with ARABIC-INDIC
    first digits it is refused, and so is 2 followed by ARABIC-INDIC 3. *)
Lemma strptime_other_decimal_digits :
  strptime (of_bytes [217; 161; 58; 217; 162; 58; 217; 163]%N) "%H:%M:%S"
  = inr (mkdatetime 1900 1 1 1 2 3 0) /\
  strptime (of_bytes [49; 217; 162; 58; 51; 217; 164; 58; 53; 217; 166]%N) "%H:%M:%S"
  = inr (mkdatetime 1900 1 1 12 34 56 0) /\
  strptime (of_bytes [217; 161; 217; 162; 58; 217; 163; 217; 164; 58;
                      217; 165; 217; 166]%N) "%H:%M:%S"
  = inl (value_error "time data does not match format") /\
  strptime (of_bytes [50; 217; 163; 58; 48; 48; 58; 48; 48]%N) "%H:%M:%S"
  = inl (value_error "time data does not match format").
Proof. repeat split; vm_compute; reflexivity. Qed.

(** C6, as the code has it: the parser succeeds exactly on the strings
    made of three fields separated by colons, with hour <= 23,
    minute <= 59 and second <= 59, where a field is one decimal digit, or
    a digit 0..9 followed by a decimal digit, and an hour that begins
    with 2 has both digits in 0..9; a decimal digit is any decimal digit
    of Unicode.  It then gives that time of day on the day the clock
    shows; on every other string it raises ValueError.  The strings of
    the two-digit format HH:MM:SS with fields in range are among those it
    accepts. *)
Theorem C6_parser_accepts_one_or_two_digit_fields args w i s :
  (forall dt,
      parse_timestring (fst (_parse_cli args module_load)) w i s = inr dt <->
      exists h m sec,
        H_M_S s h m sec /\ (h <= 23)%Z /\ (m <= 59)%Z /\ (sec <= 59)%Z /\
        dt = mkdatetime (year (today_at w i)) (month (today_at w i))
                        (day (today_at w i)) h m sec 0) /\
  ((exists dt, parse_timestring (fst (_parse_cli args module_load)) w i s = inr dt) \/
   (exists e, parse_timestring (fst (_parse_cli args module_load)) w i s = inl e /\
              cls e = ValueError)) /\
  (spec_parses s = false \/
   exists dt, parse_timestring (fst (_parse_cli args module_load)) w i s = inr dt).
Proof.
  destruct (parse_cli_keeps_defaults args module_load) as [_ Hfmt].
  cbn [module_load CONFIG_TIMESTAMP_FMT] in Hfmt.
  set (g := fst (_parse_cli args module_load)) in *.
  split; [intros dt; now apply parse_timestring_inr_iff|]. split.
  - destruct (parse_timestring g w i s) as [e|dt] eqn:E.
    + right. exists e. split; [reflexivity|].
      unfold parse_timestring in E.
      destruct (strptime s (CONFIG_TIMESTAMP_FMT g)) as [e'|dt] eqn:E';
        [|discriminate].
      inversion E; subst e'. eapply strptime_raises_class; eauto.
    + left. now exists dt.
  - destruct (spec_parses s) eqn:P; [right|now left].
    destruct (spec_parses_H_M_S s P) as (h & m & sec & Hs & Lh & Lm & Ls).
    eexists. apply parse_timestring_inr_iff; [exact Hfmt|].
    exists h, m, sec. repeat split; eauto.
Qed.

(** C6, as the specification has it, fails: "1:2:3" is not in the format
    HH:MM:SS, and the parser accepts it. *)
Lemma C6_counterexample :
  spec_parses "1:2:3" = false /\
  parse_timestring module_load (world_at noon) 0 "1:2:3"
    = inr (mkdatetime 2026 11 4 1 2 3 0).
Proof. split; vm_compute; reflexivity. Qed.

(* ===================================================================== *)
(** ** The command line, continued *)
(* ===================================================================== *)

Lemma split_nonempty sep s : split sep s <> [].
Proof.
  destruct s as [|c s']; cbn [split]; [discriminate|].
  destruct (Ascii.eqb c sep); [discriminate|].
  destruct (split sep s'); discriminate.
Qed.

Lemma split_length sep s :
  List.length (split sep s) = S (count_char sep s).
Proof.
  induction s as [|c s' IH]; cbn [split count_char]; [reflexivity|].
  destruct (Ascii.eqb c sep).
  - cbn [List.length]. now rewrite IH.
  - destruct (split sep s') as [|x xs] eqn:S'.
    + now destruct (split_nonempty sep s').
    + cbn [List.length] in *. lia.
Qed.

(** X1: [str.split] on a separator gives one part more than the string
    has separators, hence never an empty list (the empty string gives one
    empty part), and no part contains the separator. *)
Theorem X1_split_parts sep s :
  List.length (split sep s) = S (count_char sep s) /\
  Forall (fun part => count_char sep part = 0%nat) (split sep s).
Proof.
  split; [apply split_length|].
  induction s as [|c s' IH]; cbn [split].
  - constructor; [reflexivity|constructor].
  - destruct (Ascii.eqb c sep) eqn:E.
    + constructor; [reflexivity|exact IH].
    + destruct (split sep s') as [|x xs] eqn:S'.
      * now destruct (split_nonempty sep s').
      * inversion IH as [|? ? Hx Hxs]; subst.
        constructor; [|exact Hxs]. cbn [count_char]. now rewrite E, Hx.
Qed.

Lemma join_cons sep p q rest :
  join sep (p :: q :: rest) = p ++ String sep (join sep (q :: rest)).
Proof. reflexivity. Qed.

(** X2: joining the parts of a split with the separator gives the string
    back. *)
Theorem X2_join_split sep s : join sep (split sep s) = s.
Proof.
  induction s as [|c s' IH]; cbn [split]; [reflexivity|].
  destruct (split sep s') as [|x xs] eqn:S'.
  { now destruct (split_nonempty sep s'). }
  destruct (Ascii.eqb_spec c sep) as [->|_].
  - rewrite join_cons, IH. reflexivity.
  - destruct xs as [|y ys].
    + cbn [join] in *. now rewrite IH.
    + rewrite join_cons in *. cbn [append]. now rewrite IH.
Qed.

(** X3: a run of the program on the argument [timestamps] handles one
    entry more than the argument has commas: launched + skipped is that
    number, for every url option and every world.  The empty argument is
    one (unparsable) entry. *)
Theorem X3_main_counts_comma_separated_entries args w :
  exists p s e,
    fst (snd (main args w)) = inr (p, s, e) /\
    (p + s = Z.of_nat (S (count_char "," (arg_timestamps args))))%Z.
Proof.
  unfold main. destruct (_parse_cli args module_load) as [g l] eqn:E.
  assert (Hl : l = split "," (arg_timestamps args)).
  { unfold _parse_cli in E. now inversion E. }
  cbn [snd].
  destruct (start_returns g w l) as (st & Ei & R).
  destruct (intake_loop_counts g w l 0 intake_init) as (st2 & E2 & P & S' & _).
  rewrite Ei in E2. inversion E2; subst st2. clear E2.
  exists (passes st), (skips st), (failed_count w (tasks st)).
  rewrite R. split; [reflexivity|].
  pose proof (count_kind_total g w l 0) as Tot.
  rewrite Hl in Tot at 4. rewrite split_length in Tot.
  cbn [intake_init passes skips] in P, S'. lia.
Qed.

(* ===================================================================== *)
(** ** The scheduler, continued *)
(* ===================================================================== *)

Lemma run_tasks_ext w w' ts :
  (forall k, task_now w' k = task_now w k) ->
  (forall k r, urlopen w' k r = urlopen w k r) ->
  forall k, run_tasks w' k ts = run_tasks w k ts.
Proof.
  intros Hn Hu. induction ts as [|t ts IH]; intros k; cbn [run_tasks]; [reflexivity|].
  rewrite IH. unfold wait_and_request, _do_request. now rewrite Hn, Hu.
Qed.

(** X4: the triple and the events of [start] do not depend on the order
    in which the tasks complete. *)
Theorem X4_start_independent_of_completion_order g w timestamps fin :
  start g (mkworld (today_at w) (now_at w) (task_now w) (urlopen w) fin) timestamps
  = start g w timestamps.
Proof.
  set (w' := mkworld (today_at w) (now_at w) (task_now w) (urlopen w) fin).
  destruct (start_returns g w timestamps) as (st & E & R).
  destruct (start_returns g w' timestamps) as (st' & E' & R').
  rewrite (intake_loop_clock g w w') in E' by reflexivity.
  rewrite E in E'. inversion E'; subst st'.
  rewrite R, R'. unfold failed_count, outcomes.
  now rewrite (run_tasks_ext w w') by reflexivity.
Qed.

(** X5: [start] makes one request for each launched task and no other:
    the number of GETs is the launched count, whether the requests
    succeed or fail (no retry).  Each task first sleeps and then makes its
    GET, with the header User-Agent: Mozilla/5.0 and the url and timeout
    that are the defaults of [wait_and_request]. *)
Theorem X5_one_request_per_launched_task g w timestamps :
  exists p s e,
    fst (start g w timestamps) = inr (p, s, e) /\
    Z.of_nat (List.length (List.concat (map gets (snd (start g w timestamps))))) = p /\
    Forall (fun evs =>
              exists delay,
                evs = (asyncio_sleep delay
                       ++ [EvGET (mkrequest (fst (wait_and_request_defaults g))
                                            "Mozilla/5.0"
                                            (snd (wait_and_request_defaults g)))])%list)
           (snd (start g w timestamps)).
Proof.
  destruct (start_returns g w timestamps) as (st & E & R).
  destruct (intake_loop_counts g w timestamps 0 intake_init) as (st2 & E2 & P & _ & T).
  rewrite E in E2. inversion E2; subst st2. clear E2.
  pose proof (intake_loop_task_defaults g w timestamps 0 intake_init E (Forall_nil _)) as D.
  exists (passes st), (skips st), (failed_count w (tasks st)).
  rewrite R. cbn [fst snd]. split; [reflexivity|]. split.
  - rewrite run_tasks_gets.
    assert (L : forall ts : list task,
               List.length (List.concat (map (fun t => [mkrequest (task_url t) "Mozilla/5.0"
                                                         (task_timeout t)]) ts))
               = List.length ts).
    { induction ts as [|t ts IH]; cbn [map List.concat app List.length]; auto. }
    rewrite L. cbn [intake_init passes tasks List.length] in P, T. lia.
  - generalize 0%nat. revert D. generalize (tasks st) as ts.
    induction ts as [|t ts IH]; intros D k; cbn [run_tasks map]; constructor.
    + inversion D as [|? ? [Hu Ht] _]; subst. cbn [snd fst].
      rewrite wait_and_request_events, Hu, Ht. eauto.
    + apply IH. now inversion D.
Qed.

(** An entry, numbered from [i0], from which a task comes. *)
Lemma intake_loop_provenance g w timestamps :
  forall i0 st st',
    intake_loop g w i0 timestamps st = inr st' ->
    exists new,
      tasks st' = (tasks st ++ new)%list /\
      Forall (fun t =>
                exists j timestring,
                  nth_error timestamps j = Some timestring /\
                  parse_timestring g w (i0 + j) timestring = inr (task_dt t) /\
                  time_lt (dt_time (task_dt t)) (dt_time (now_at w (i0 + j))) = false)
             new.
Proof.
  induction timestamps as [|s rest IH]; intros i0 st st' H; cbn [intake_loop] in H.
  - inversion H; subst. exists []. now rewrite app_nil_r.
  - rewrite intake_step_classify in H.
    assert (Shift : forall new,
               Forall (fun t => exists j timestring,
                           nth_error rest j = Some timestring /\
                           parse_timestring g w (S i0 + j) timestring = inr (task_dt t) /\
                           time_lt (dt_time (task_dt t)) (dt_time (now_at w (S i0 + j))) = false) new ->
               Forall (fun t => exists j timestring,
                           nth_error (s :: rest) j = Some timestring /\
                           parse_timestring g w (i0 + j) timestring = inr (task_dt t) /\
                           time_lt (dt_time (task_dt t)) (dt_time (now_at w (i0 + j))) = false) new).
    { intros new F. eapply Forall_impl; [|exact F].
      intros t (j & ts & Hn & Hp & Hl). exists (S j), ts.
      rewrite Nat.add_succ_r. auto. }
    destruct (parse_timestring g w i0 s) as [e|dt] eqn:Ep;
      [|destruct (time_lt (dt_time dt) (dt_time (now_at w i0))) eqn:El].
    + destruct (IH _ _ _ H) as (new & Ht & F). exists new. auto.
    + destruct (IH _ _ _ H) as (new & Ht & F). exists new. auto.
    + destruct (IH _ _ _ H) as (new & Ht & F).
      destruct (launch_fields g st dt) as (_ & _ & L3). rewrite L3 in Ht.
      exists (mktask dt (fst (wait_and_request_defaults g))
                     (snd (wait_and_request_defaults g)) :: new).
      split; [now rewrite Ht, <- app_assoc|].
      constructor; [|now apply Shift].
      exists 0%nat, s. rewrite Nat.add_0_r. cbn [nth_error task_dt]. auto.
Qed.

(** X6: every task that [start] launches comes from an entry of the
    batch: the entry parses to the task's target, and the target's time of
    day is not earlier than the time read when the entry was taken in. *)
Theorem X6_launched_tasks_come_from_entries_not_past g w timestamps :
  exists st,
    intake_loop g w 0 timestamps intake_init = inr st /\
    Forall (fun t =>
              exists i timestring,
                nth_error timestamps i = Some timestring /\
                parse_timestring g w i timestring = inr (task_dt t) /\
                time_lt (dt_time (task_dt t)) (dt_time (now_at w i)) = false)
           (tasks st).
Proof.
  destruct (start_returns g w timestamps) as (st & E & _).
  exists st. split; [exact E|].
  destruct (intake_loop_provenance g w timestamps 0 intake_init E) as (new & Ht & F).
  cbn [intake_init tasks app] in Ht. now rewrite Ht.
Qed.

Lemma not_Exception_not_HTTPError e :
  isinstance e Exception = false -> isinstance e HTTPError = false.
Proof.
  unfold isinstance. destruct (cls e); cbn; congruence.
Qed.

(** X7: the [except] clauses of the second loop catch instances of
    [Exception] only.  If awaiting a task raises anything else (an
    interrupt, a cancellation), the loop ends there: the exception leaves
    [start] and the tasks after it are not awaited. *)
Theorem X7_drain_lets_non_Exception_through pre e post errors :
  Forall catchable pre ->
  isinstance e Exception = false ->
  drain (pre ++ inl e :: post) errors = inl e.
Proof.
  intros F N. revert errors.
  induction pre as [|a pre IH]; intros errors; cbn [app drain].
  - cbn [drain_step]. now rewrite (not_Exception_not_HTTPError _ N), N.
  - inversion F as [|? ? Ha Hpre]; subst.
    destruct a as [e'|c]; cbn [drain_step].
    + simpl in Ha. destruct (isinstance e' HTTPError); [|rewrite Ha]; now apply IH.
    + now apply IH.
Qed.

Lemma X7_drain_lets_non_Exception_through_witness :
  drain ([inr (mkresponse 200 "http://ifconfig.co/");
          inl (raised Fail_timeout)]
         ++ inl (mkexn CancelledError 0 "") :: [inl (raised Fail_timeout)]) 0
  = inl (mkexn CancelledError 0 "").
Proof.
  apply X7_drain_lets_non_Exception_through.
  - repeat constructor.
  - reflexivity.
Defined.

(* ===================================================================== *)
(** ** Times of day, printed and read *)
(* ===================================================================== *)

Lemma time_lt_linear a b :
  (0 <= t_minute a <= 59 /\ 0 <= t_second a <= 59 /\ 0 <= t_microsecond a <= 999999)%Z ->
  (0 <= t_minute b <= 59 /\ 0 <= t_second b <= 59 /\ 0 <= t_microsecond b <= 999999)%Z ->
  time_lt a b = true <->
  ((t_hour a * 3600 + t_minute a * 60 + t_second a) * 1000000 + t_microsecond a
   < (t_hour b * 3600 + t_minute b * 60 + t_second b) * 1000000 + t_microsecond b)%Z.
Proof.
  intros Ha Hb. unfold time_lt.
  rewrite !orb_true_iff, !andb_true_iff, !Z.ltb_lt, !Z.eqb_eq. lia.
Qed.

Lemma same_day_time_lt_iff dt now :
  valid_time dt -> valid_time now ->
  toordinal dt = toordinal now ->
  time_lt (dt_time dt) (dt_time now) = true <-> (sub_microseconds dt now < 0)%Z.
Proof.
  intros (_ & Hm & Hs & Hu) (_ & Hm' & Hs' & Hu') Hd.
  rewrite time_lt_linear by (cbn; auto).
  unfold sub_microseconds. rewrite Hd. cbn. lia.
Qed.

(** X8: for two instants of the same calendar day, the comparison by
    which [start] skips an entry ([dt.time() < now.time()]) holds exactly
    when the wait that the task computes ([dt - now]) is negative. *)
Theorem X8_skip_test_agrees_with_sign_of_wait dt now :
  valid_time dt -> valid_time now ->
  toordinal dt = toordinal now ->
  time_lt (dt_time dt) (dt_time now) = true <-> (sub_microseconds dt now < 0)%Z.
Proof. exact (@same_day_time_lt_iff dt now). Qed.

Lemma X8_skip_test_agrees_with_sign_of_wait_witness :
  time_lt (dt_time midnight) (dt_time noon) = true <->
  (sub_microseconds midnight noon < 0)%Z.
Proof.
  apply X8_skip_test_agrees_with_sign_of_wait.
  - unfold valid_time. cbn. lia.
  - unfold valid_time. cbn. lia.
  - reflexivity.
Defined.

Lemma strptime_inr_valid text fmt dt :
  strptime text fmt = inr dt ->
  valid_time dt /\ year dt = 1900%Z /\ month dt = 1%Z /\ day dt = 1%Z /\
  microsecond dt = 0%Z.
Proof.
  unfold strptime.
  destruct (compile fmt) as [r|]; [|discriminate].
  destruct (re_match r (chars text)) as [[n d]|]; [|discriminate].
  destruct (negb _); [discriminate|].
  destruct (check_time_fields _ _ _) eqn:C; [|discriminate].
  intros H. inversion H; subst dt. clear H.
  apply check_time_fields_bounds in C. unfold valid_time. cbn. repeat split; lia.
Qed.

(** X9: the wait of a launched task, measured at the reading of the clock
    by which its entry was taken in, is never negative, when the two
    readings of that intake ([today()] and [now()]) fall on the same day. *)
Theorem X9_launched_wait_not_negative_at_intake g w i timestring dt :
  parse_timestring g w i timestring = inr dt ->
  time_lt (dt_time dt) (dt_time (now_at w i)) = false ->
  valid_time (now_at w i) ->
  toordinal (today_at w i) = toordinal (now_at w i) ->
  (0 <= sub_microseconds dt (now_at w i))%Z.
Proof.
  intros Hp Hl Hv Hd. unfold parse_timestring in Hp.
  destruct (strptime timestring (CONFIG_TIMESTAMP_FMT g)) as [e|dt0] eqn:E;
    [discriminate|].
  inversion Hp; subst dt. clear Hp.
  apply strptime_inr_valid in E. destruct E as (V0 & _ & _ & _ & U0).
  set (dt := replace_date dt0 _ _ _) in *.
  assert (Vd : valid_time dt) by exact V0.
  assert (Od : toordinal dt = toordinal (now_at w i)) by (rewrite <- Hd; reflexivity).
  destruct (Z_lt_ge_dec (sub_microseconds dt (now_at w i)) 0) as [Neg|Pos]; [|lia].
  apply (same_day_time_lt_iff Vd Hv Od) in Neg. congruence.
Qed.

Lemma X9_launched_wait_not_negative_at_intake_witness :
  (0 <= sub_microseconds (mkdatetime 2026 11 4 12 0 1 0)
                         (now_at (world_at noon) 0))%Z.
Proof.
  apply (@X9_launched_wait_not_negative_at_intake module_load (world_at noon) 0
           "12:00:01" (mkdatetime 2026 11 4 12 0 1 0)).
  - vm_compute. reflexivity.
  - vm_compute. reflexivity.
  - unfold valid_time. cbn. lia.
  - reflexivity.
Defined.

(** The code points of a string of ASCII characters are its bytes. *)
Lemma utf8_decode_ascii bs :
  Forall (fun b => (b < 128)%N) bs -> utf8_decode bs = bs.
Proof.
  induction 1 as [|b bs Hb _ IH]; [reflexivity|].
  cbn [utf8_decode]. apply N.ltb_lt in Hb. now rewrite Hb, IH.
Qed.

Lemma chars_ascii l :
  Forall (fun c => (N_of_ascii c < 128)%N) l ->
  chars (string_of_list_ascii l) = map N_of_ascii l.
Proof.
  intros F. unfold chars. rewrite list_ascii_of_string_of_list_ascii.
  apply utf8_decode_ascii. now apply Forall_map.
Qed.

Lemma digit_char_code k :
  (0 <= k <= 9)%Z -> N_of_ascii (digit_char k) = (48 + Z.to_N k)%N.
Proof.
  intros H. unfold digit_char, ascii_of_nat.
  rewrite N_ascii_embedding by lia. lia.
Qed.

Lemma pad2_chars n :
  (0 <= n <= 99)%Z ->
  map N_of_ascii (pad2 n) = [(48 + Z.to_N (n / 10))%N; (48 + Z.to_N (n mod 10))%N] /\
  (0 <= n / 10 <= 9)%Z /\ (0 <= n mod 10 <= 9)%Z.
Proof.
  intros H.
  assert (B1 : (0 <= n / 10 <= 9)%Z) by (Z.div_mod_to_equations; lia).
  assert (B2 : (0 <= n mod 10 <= 9)%Z) by (Z.div_mod_to_equations; lia).
  unfold pad2. cbn [map]. now rewrite !digit_char_code by assumption.
Qed.

(** A field printed with two digits, read as a field. *)
Lemma pad2_field n :
  (0 <= n <= 99)%Z ->
  field_text (map N_of_ascii (pad2 n)) = true /\
  twenties_ascii (map N_of_ascii (pad2 n)) = true /\
  int_of (map N_of_ascii (pad2 n)) = n /\
  Forall (fun c => (N_of_ascii c < 128)%N) (pad2 n).
Proof.
  intros H. destruct (pad2_chars H) as (E & B1 & B2).
  assert (A1 : ascii_digit (48 + Z.to_N (n / 10)) = true)
    by (apply ascii_digit_iff; lia).
  assert (A2 : ascii_digit (48 + Z.to_N (n mod 10)) = true)
    by (apply ascii_digit_iff; lia).
  split; [|split; [|split]].
  - rewrite E. cbn [field_text]. now rewrite A1, (ascii_digit_is_digit _ A2).
  - rewrite E. cbn [twenties_ascii]. rewrite A2. apply orb_true_r.
  - rewrite E, int_of_two, (ascii_digit_value _ A1), (ascii_digit_value _ A2).
    Z.div_mod_to_equations. lia.
  - unfold pad2. repeat constructor; rewrite digit_char_code by assumption; lia.
Qed.

Lemma strftime_TIMESTAMP_FMT t :
  strftime t "%H:%M:%S" =
  Some (string_of_list_ascii
          (pad2 (hour t) ++ ":"%char :: pad2 (minute t) ++ ":"%char :: pad2 (second t))).
Proof. reflexivity. Qed.

Lemma time_text_chars h m s :
  (0 <= h <= 99)%Z -> (0 <= m <= 99)%Z -> (0 <= s <= 99)%Z ->
  chars (string_of_list_ascii
           (pad2 h ++ ":"%char :: pad2 m ++ ":"%char :: pad2 s))
  = (map N_of_ascii (pad2 h) ++ colon :: map N_of_ascii (pad2 m)
     ++ colon :: map N_of_ascii (pad2 s))%list.
Proof.
  intros Hh Hm Hs.
  destruct (pad2_field Hh) as (_ & _ & _ & Ah).
  destruct (pad2_field Hm) as (_ & _ & _ & Am).
  destruct (pad2_field Hs) as (_ & _ & _ & As).
  rewrite chars_ascii.
  - rewrite map_app. cbn [map]. rewrite map_app. reflexivity.
  - apply Forall_app; split; [exact Ah|]. constructor; [cbn; lia|].
    apply Forall_app; split; [exact Am|]. constructor; [cbn; lia|exact As].
Qed.

Lemma spec_parses_pad2 h m s :
  (0 <= h <= 23)%Z -> (0 <= m <= 59)%Z -> (0 <= s <= 59)%Z ->
  spec_parses (string_of_list_ascii
                 (pad2 h ++ ":"%char :: pad2 m ++ ":"%char :: pad2 s)) = true.
Proof.
  intros Hh Hm Hs.
  assert (Hh' : (0 <= h <= 99)%Z) by lia.
  assert (Hm' : (0 <= m <= 99)%Z) by lia.
  assert (Hs' : (0 <= s <= 99)%Z) by lia.
  destruct (pad2_field Hh') as (_ & _ & Vh & _).
  destruct (pad2_field Hm') as (_ & _ & Vm & _).
  destruct (pad2_field Hs') as (_ & _ & Vs & _).
  destruct (pad2_chars Hh') as (Eh & Bh1 & Bh2).
  destruct (pad2_chars Hm') as (Em & Bm1 & Bm2).
  destruct (pad2_chars Hs') as (Es & Bs1 & Bs2).
  unfold spec_parses, spec_HH_MM_SS.
  rewrite time_text_chars by assumption.
  rewrite Eh, Em, Es in *. cbn [app].
  repeat match goal with
         | |- context [ascii_digit ?c] =>
             replace (ascii_digit c) with true
               by (symmetry; apply ascii_digit_iff; lia)
         end.
  rewrite N.eqb_refl. cbn [andb]. rewrite Vh, Vm, Vs.
  rewrite !andb_true_iff, !Z.leb_le. lia.
Qed.

(** The text that [strftime] prints for a time of day is read back by
    [strptime] as that time of day. *)
Lemma strptime_pad2 h m s :
  (0 <= h <= 23)%Z -> (0 <= m <= 59)%Z -> (0 <= s <= 59)%Z ->
  strptime (string_of_list_ascii
              (pad2 h ++ ":"%char :: pad2 m ++ ":"%char :: pad2 s)) "%H:%M:%S"
  = inr (mkdatetime 1900 1 1 h m s 0).
Proof.
  intros Hh Hm Hs.
  assert (Hh' : (0 <= h <= 99)%Z) by lia.
  assert (Hm' : (0 <= m <= 99)%Z) by lia.
  assert (Hs' : (0 <= s <= 99)%Z) by lia.
  destruct (pad2_field Hh') as (Fh & Th & Vh & _).
  destruct (pad2_field Hm') as (Fm & _ & Vm & _).
  destruct (pad2_field Hs') as (Fs & _ & Vs & _).
  rewrite (@strptime_fields_inr _ _ _ _ (time_text_chars Hh' Hm' Hs'))
    by (auto; lia).
  now rewrite Vh, Vm, Vs.
Qed.

(** X10: printing and reading with the module's format is a round trip
    on the time of day: for every instant, [strftime] gives a text in the
    two-digit format HH:MM:SS, and [strptime] reads from it the same
    hour, minute and second, on 1900-01-01 and without microseconds. *)
Theorem X10_strftime_strptime_round_trip t :
  valid_time t ->
  exists text,
    strftime t "%H:%M:%S" = Some text /\
    spec_parses text = true /\
    strptime text "%H:%M:%S"
    = inr (mkdatetime 1900 1 1 (hour t) (minute t) (second t) 0).
Proof.
  intros (Hh & Hm & Hs & _). eexists.
  split; [apply strftime_TIMESTAMP_FMT|]. split.
  - now apply spec_parses_pad2.
  - now apply strptime_pad2.
Qed.

Lemma X10_strftime_strptime_round_trip_witness :
  exists text,
    strftime (mkdatetime 2026 11 4 7 5 9 123456) "%H:%M:%S" = Some text /\
    spec_parses text = true /\
    strptime text "%H:%M:%S" = inr (mkdatetime 1900 1 1 7 5 9 0).
Proof.
  apply (@X10_strftime_strptime_round_trip (mkdatetime 2026 11 4 7 5 9 123456)).
  unfold valid_time. cbn. lia.
Defined.

(* ===================================================================== *)
(** ** timestamp and timestamp_soon *)
(* ===================================================================== *)

Lemma hms_of_second_of_day tod :
  (0 <= tod < 86400)%Z ->
  (0 <= tod / 3600 <= 23 /\ 0 <= tod mod 3600 / 60 <= 59 /\
   0 <= tod mod 3600 mod 60 <= 59 /\
   tod / 3600 * 3600 + tod mod 3600 / 60 * 60 + tod mod 3600 mod 60 = tod)%Z.
Proof. intros H. Z.div_mod_to_equations. lia. Qed.

(** The text of [timestamp]: the time of day [sec] seconds after [now],
    modulo one day. *)
Lemma timestamp_text g now sec text :
  CONFIG_TIMESTAMP_FMT g = "%H:%M:%S" ->
  valid_time now ->
  timestamp g now sec = Some text ->
  text = string_of_list_ascii
           (pad2 ((second_of_day now + sec) mod 86400 / 3600)
            ++ ":"%char :: pad2 ((second_of_day now + sec) mod 86400 mod 3600 / 60)
            ++ ":"%char :: pad2 ((second_of_day now + sec) mod 86400 mod 3600 mod 60)).
Proof.
  intros Hfmt (Hh & Hm & Hs & Hu). unfold timestamp, timedelta_new.
  rewrite Hfmt.
  change (0 / 1000000)%Z with 0%Z. change (0 mod 1000000)%Z with 0%Z.
  rewrite Z.add_0_r, Z.add_0_l.
  destruct (Z.abs (sec / 86400) <=? 999999999)%Z; [|discriminate].
  unfold datetime_add, timedelta_new.
  cbn [td_days td_seconds td_microseconds].
  rewrite Z.add_0_r. rewrite (Z.div_small (microsecond now)) by lia.
  rewrite Z.add_0_r.
  rewrite Zplus_mod_idemp_r.
  destruct (Z.abs _ <=? 999999999)%Z; [|discriminate].
  cbn [td_days td_seconds td_microseconds].
  destruct (_ && _); [|discriminate].
  destruct (ord2ymd _) as [[y mo] dd].
  rewrite strftime_TIMESTAMP_FMT. cbn [hour minute second].
  intros H. inversion H. reflexivity.
Qed.

(** [timestamp] returns when the date of the sum is in the years
    1..9999. *)
Lemma timestamp_returns g now sec :
  CONFIG_TIMESTAMP_FMT g = "%H:%M:%S" ->
  valid_time now ->
  (0 < toordinal now + (second_of_day now + sec) / 86400 <= MAXORDINAL)%Z ->
  (Z.abs (sec / 86400) <= 999999999)%Z ->
  exists text, timestamp g now sec = Some text.
Proof.
  intros Hfmt (Hh & Hm & Hs & Hu) Hd Ha. unfold timestamp, timedelta_new.
  rewrite Hfmt.
  change (0 / 1000000)%Z with 0%Z. change (0 mod 1000000)%Z with 0%Z.
  rewrite Z.add_0_r, Z.add_0_l.
  apply Z.leb_le in Ha. rewrite Ha.
  unfold datetime_add, timedelta_new.
  cbn [td_days td_seconds td_microseconds].
  rewrite Z.add_0_r. rewrite (Z.div_small (microsecond now)) by lia.
  rewrite Z.add_0_r.
  assert (D : (toordinal now + sec / 86400
               + (hour now * 3600 + minute now * 60 + second now + sec mod 86400) / 86400
               = toordinal now + (second_of_day now + sec) / 86400)%Z).
  { unfold second_of_day. Z.div_mod_to_equations. lia. }
  rewrite D.
  assert (A : (Z.abs (toordinal now + (second_of_day now + sec) / 86400)
               <=? 999999999)%Z = true)
    by (apply Z.leb_le; unfold MAXORDINAL in Hd; lia).
  rewrite A. cbn [td_days td_seconds td_microseconds].
  assert (B : ((0 <? toordinal now + (second_of_day now + sec) / 86400)
               && (toordinal now + (second_of_day now + sec) / 86400 <=? MAXORDINAL))%Z
              = true)
    by (apply andb_true_iff; split; [apply Z.ltb_lt|apply Z.leb_le]; lia).
  rewrite B. destruct (ord2ymd _) as [[y mo] dd].
  rewrite strftime_TIMESTAMP_FMT. eauto.
Qed.

(** X11: when the date of [now] plus [sec] seconds is within the years
    1..9999, [timestamp(sec)] returns a text in the two-digit format
    HH:MM:SS which [strptime] reads as the time of day [sec] seconds
    after [now], modulo one day and without the microseconds of [now]. *)
Theorem X11_timestamp_is_well_formed g now sec :
  CONFIG_TIMESTAMP_FMT g = "%H:%M:%S" ->
  valid_time now ->
  (0 < toordinal now + (second_of_day now + sec) / 86400 <= MAXORDINAL)%Z ->
  (Z.abs (sec / 86400) <= 999999999)%Z ->
  exists text dt,
    timestamp g now sec = Some text /\
    spec_parses text = true /\
    strptime text (CONFIG_TIMESTAMP_FMT g) = inr dt /\
    second_of_day dt = ((second_of_day now + sec) mod 86400)%Z /\
    microsecond dt = 0%Z.
Proof.
  intros Hfmt Hv Hd Ha.
  destruct (timestamp_returns g sec Hfmt Hv Hd Ha) as [text Ht].
  pose proof (timestamp_text g sec Hfmt Hv Ht) as E.
  set (tod := ((second_of_day now + sec) mod 86400)%Z) in *.
  assert (R : (0 <= tod < 86400)%Z) by (apply Z.mod_pos_bound; lia).
  destruct (hms_of_second_of_day R) as (Bh & Bm & Bs & Sum).
  exists text. eexists. split; [exact Ht|]. rewrite E, Hfmt. split.
  - now apply spec_parses_pad2.
  - split; [now apply strptime_pad2|]. split; [exact Sum|reflexivity].
Qed.

Lemma X11_timestamp_is_well_formed_witness :
  exists text dt,
    timestamp module_load (mkdatetime 2026 11 4 23 59 57 250000) 5 = Some text /\
    spec_parses text = true /\
    strptime text (CONFIG_TIMESTAMP_FMT module_load) = inr dt /\
    second_of_day dt
    = ((second_of_day (mkdatetime 2026 11 4 23 59 57 250000) + 5) mod 86400)%Z /\
    microsecond dt = 0%Z.
Proof.
  apply (@X11_timestamp_is_well_formed module_load
           (mkdatetime 2026 11 4 23 59 57 250000) 5).
  - reflexivity.
  - unfold valid_time. cbn. lia.
  - vm_compute. split; [reflexivity|discriminate].
  - vm_compute. discriminate.
Defined.

(** [start] on one entry that parses. *)
Lemma start_single_entry g w text dt :
  parse_timestring g w 0 text = inr dt ->
  (time_lt (dt_time dt) (dt_time (now_at w 0)) = true ->
   start g w [text] = (inr (0, 1, 0)%Z, [])) /\
  (time_lt (dt_time dt) (dt_time (now_at w 0)) = false ->
   exists e, fst (start g w [text]) = inr (1, 0, e)%Z).
Proof.
  intros Hp. destruct (start_returns g w [text]) as (st & E & R).
  cbn [intake_loop] in E. rewrite intake_step_classify, Hp in E.
  split; intros Hl; rewrite Hl in E; inversion E as [E']; rewrite R, <- E'.
  - reflexivity.
  - destruct (launch_fields g intake_init dt) as (L1 & L2 & _).
    rewrite L1, L2. cbn [fst intake_init passes skips]. eauto.
Qed.

(** The entry printed by [timestamp], read back at intake. *)
Lemma timestamp_entry g w now sec text :
  CONFIG_TIMESTAMP_FMT g = "%H:%M:%S" ->
  valid_time now ->
  timestamp g now sec = Some text ->
  exists dt,
    parse_timestring g w 0 text = inr dt /\
    (0 <= t_minute (dt_time dt) <= 59 /\ 0 <= t_second (dt_time dt) <= 59 /\
     0 <= t_microsecond (dt_time dt) <= 999999)%Z /\
    ((t_hour (dt_time dt) * 3600 + t_minute (dt_time dt) * 60
      + t_second (dt_time dt)) * 1000000 + t_microsecond (dt_time dt)
     = (second_of_day now + sec) mod 86400 * 1000000)%Z.
Proof.
  intros Hfmt Hv Ht. pose proof (timestamp_text g sec Hfmt Hv Ht) as E.
  set (tod := ((second_of_day now + sec) mod 86400)%Z) in *.
  assert (R : (0 <= tod < 86400)%Z) by (apply Z.mod_pos_bound; lia).
  destruct (hms_of_second_of_day R) as (Bh & Bm & Bs & Sum).
  unfold parse_timestring. rewrite Hfmt, E, strptime_pad2 by assumption.
  eexists. split; [reflexivity|]. cbn. split; lia.
Qed.

Lemma timestamp_entry_launched g w now sec :
  CONFIG_TIMESTAMP_FMT g = "%H:%M:%S" ->
  valid_time now ->
  now_at w 0 = now ->
  (0 < toordinal now <= MAXORDINAL)%Z ->
  (0 <= sec)%Z ->
  (second_of_day now + sec < 86400)%Z ->
  (1 <= sec \/ microsecond now = 0)%Z ->
  exists text e,
    timestamp g now sec = Some text /\
    fst (start g w [text]) = inr (1, 0, e)%Z.
Proof.
  intros Hfmt Hv Hn Hd H0 Hday Hsec.
  pose proof Hv as (Hh & Hm & Hs & Hu).
  assert (T : (0 <= second_of_day now)%Z) by (unfold second_of_day; lia).
  destruct (@timestamp_returns g now sec Hfmt Hv) as [text Ht].
  { rewrite Z.div_small by lia. lia. }
  { rewrite Z.div_small by lia. cbn. lia. }
  destruct (@timestamp_entry g w now sec text Hfmt Hv Ht) as (dt & Hp & Hr & Hsum).
  rewrite Z.mod_small in Hsum by lia.
  destruct (start_single_entry g w text Hp) as [_ L].
  destruct L as [e He]; [|eauto].
  destruct (time_lt (dt_time dt) (dt_time (now_at w 0))) eqn:Lt; [|reflexivity].
  apply time_lt_linear in Lt; [|exact Hr|rewrite Hn; cbn; auto].
  rewrite Hn in Lt. unfold second_of_day, dt_time in *.
  cbn [t_hour t_minute t_second t_microsecond] in *. lia.
Qed.

(** X12: an entry made by [timestamp(sec)] with [sec >= 0] and handed to
    [start] while the clock still reads [now] is launched, when the sum
    stays within the day and either [sec] is at least 1 or [now] has no
    microseconds. *)
Theorem X12_timestamp_entry_is_launched g w now sec :
  CONFIG_TIMESTAMP_FMT g = "%H:%M:%S" ->
  valid_time now ->
  now_at w 0 = now ->
  (0 < toordinal now <= MAXORDINAL)%Z ->
  (0 <= sec)%Z ->
  (second_of_day now + sec < 86400)%Z ->
  (1 <= sec \/ microsecond now = 0)%Z ->
  exists text e,
    timestamp g now sec = Some text /\
    fst (start g w [text]) = inr (1, 0, e)%Z.
Proof. exact (@timestamp_entry_launched g w now sec). Qed.

Lemma X12_timestamp_entry_is_launched_witness :
  exists text e,
    timestamp module_load midnight 5 = Some text /\
    fst (start module_load (world_at midnight) [text]) = inr (1, 0, e)%Z.
Proof.
  apply (@X12_timestamp_entry_is_launched module_load (world_at midnight) midnight 5).
  - reflexivity.
  - unfold valid_time. cbn. lia.
  - reflexivity.
  - vm_compute. split; [reflexivity|discriminate].
  - lia.
  - vm_compute. reflexivity.
  - left. lia.
Defined.

(** X13: an entry made by [timestamp(sec)] whose sum passes midnight
    (with [sec] below one day) is printed as a time early in the next
    day; [start], while the clock still reads [now], takes it for
    already past: it is skipped and no request is made. *)
Theorem X13_timestamp_past_midnight_is_skipped g w now sec :
  CONFIG_TIMESTAMP_FMT g = "%H:%M:%S" ->
  valid_time now ->
  now_at w 0 = now ->
  (0 < toordinal now + 1 <= MAXORDINAL)%Z ->
  (sec < 86400)%Z ->
  (86400 <= second_of_day now + sec)%Z ->
  exists text,
    timestamp g now sec = Some text /\
    start g w [text] = (inr (0, 1, 0)%Z, []).
Proof.
  intros Hfmt Hv Hn Hd Hlt Hday.
  pose proof Hv as (Hh & Hm & Hs & Hu).
  assert (T : (0 <= second_of_day now < 86400)%Z) by (unfold second_of_day; lia).
  assert (Q : ((second_of_day now + sec) / 86400 = 1)%Z)
    by (Z.div_mod_to_equations; lia).
  assert (Q0 : (sec / 86400 = 0)%Z) by (apply Z.div_small; lia).
  destruct (@timestamp_returns g now sec Hfmt Hv) as [text Ht].
  { rewrite Q. lia. }
  { rewrite Q0. cbn. lia. }
  destruct (@timestamp_entry g w now sec text Hfmt Hv Ht) as (dt & Hp & Hr & Hsum).
  exists text. split; [exact Ht|].
  apply (proj1 (start_single_entry g w text Hp)).
  apply time_lt_linear; [exact Hr|rewrite Hn; cbn; auto|].
  rewrite Hsum, Hn. unfold second_of_day, dt_time in *.
  cbn [t_hour t_minute t_second t_microsecond] in *.
  Z.div_mod_to_equations. lia.
Qed.

Lemma X13_timestamp_past_midnight_is_skipped_witness :
  exists text,
    timestamp module_load (mkdatetime 2026 11 4 23 59 57 0) 5 = Some text /\
    start module_load (world_at (mkdatetime 2026 11 4 23 59 57 0)) [text]
    = (inr (0, 1, 0)%Z, []).
Proof.
  apply (@X13_timestamp_past_midnight_is_skipped module_load
           (world_at (mkdatetime 2026 11 4 23 59 57 0))
           (mkdatetime 2026 11 4 23 59 57 0) 5).
  - reflexivity.
  - unfold valid_time. cbn. lia.
  - reflexivity.
  - vm_compute. split; [reflexivity|discriminate].
  - lia.
  - vm_compute. discriminate.
Defined.

(** X14: [timestamp(0)] drops the microseconds of [now]; when [now] has
    any, the entry lies before [now] and [start] skips it without a
    request. *)
Theorem X14_timestamp_zero_is_skipped_within_a_second g w now :
  CONFIG_TIMESTAMP_FMT g = "%H:%M:%S" ->
  valid_time now ->
  now_at w 0 = now ->
  (0 < toordinal now <= MAXORDINAL)%Z ->
  (0 < microsecond now)%Z ->
  exists text,
    timestamp g now 0 = Some text /\
    start g w [text] = (inr (0, 1, 0)%Z, []).
Proof.
  intros Hfmt Hv Hn Hd Hus.
  pose proof Hv as (Hh & Hm & Hs & Hu).
  assert (T : (0 <= second_of_day now < 86400)%Z) by (unfold second_of_day; lia).
  destruct (@timestamp_returns g now 0 Hfmt Hv) as [text Ht].
  { rewrite Z.add_0_r, Z.div_small by lia. lia. }
  { cbn. lia. }
  destruct (@timestamp_entry g w now 0 text Hfmt Hv Ht) as (dt & Hp & Hr & Hsum).
  exists text. split; [exact Ht|].
  apply (proj1 (start_single_entry g w text Hp)).
  apply time_lt_linear; [exact Hr|rewrite Hn; cbn; auto|].
  rewrite Hsum, Hn, Z.add_0_r, Z.mod_small by lia.
  unfold second_of_day, dt_time.
  cbn [t_hour t_minute t_second t_microsecond]. lia.
Qed.

Lemma X14_timestamp_zero_is_skipped_within_a_second_witness :
  exists text,
    timestamp module_load (mkdatetime 2026 11 4 12 0 0 1) 0 = Some text /\
    start module_load (world_at (mkdatetime 2026 11 4 12 0 0 1)) [text]
    = (inr (0, 1, 0)%Z, []).
Proof.
  apply (@X14_timestamp_zero_is_skipped_within_a_second module_load
           (world_at (mkdatetime 2026 11 4 12 0 0 1))
           (mkdatetime 2026 11 4 12 0 0 1)).
  - reflexivity.
  - unfold valid_time. cbn. lia.
  - reflexivity.
  - vm_compute. split; [reflexivity|discriminate].
  - cbn. lia.
Defined.

(** X15: [timestamp_soon] does not use its parameters [a] and [b]:
    whatever they are, its entry is [timestamp(k)] for a k drawn from
    1..5.  Made more than five seconds before midnight (the second of the
    day of [now] plus 5 is below 86400, so [now] is 23:59:54 at the
    latest) and handed to [start] while the clock still reads [now], the
    entry is launched. *)
Theorem X15_timestamp_soon_entry_is_launched g w now below a b :
  CONFIG_TIMESTAMP_FMT g = "%H:%M:%S" ->
  valid_time now ->
  now_at w 0 = now ->
  (0 < toordinal now <= MAXORDINAL)%Z ->
  (0 <= below 5 < 5)%Z ->
  (second_of_day now + 5 < 86400)%Z ->
  exists k text e,
    (1 <= k <= 5)%Z /\
    timestamp_soon g now below a b = Some text /\
    timestamp g now k = Some text /\
    fst (start g w [text]) = inr (1, 0, e)%Z.
Proof.
  intros Hfmt Hv Hn Hd Hb Hday.
  destruct (@timestamp_entry_launched g w now (1 + below 5)%Z Hfmt Hv Hn Hd)
    as (text & e & Ht & Hs); try lia.
  exists (1 + below 5)%Z, text, e. repeat split; auto; lia.
Qed.

Lemma X15_timestamp_soon_entry_is_launched_witness :
  exists k text e,
    (1 <= k <= 5)%Z /\
    timestamp_soon module_load midnight (fun n => (n - 1)%Z) 0 100 = Some text /\
    timestamp module_load midnight k = Some text /\
    fst (start module_load (world_at midnight) [text]) = inr (1, 0, e)%Z.
Proof.
  apply (@X15_timestamp_soon_entry_is_launched module_load (world_at midnight)
           midnight (fun n => (n - 1)%Z) 0 100).
  - reflexivity.
  - unfold valid_time. cbn. lia.
  - reflexivity.
  - vm_compute. split; [reflexivity|discriminate].
  - cbn. lia.
  - vm_compute. reflexivity.
Defined.

(* ===================================================================== *)
(** ** test.py *)
(* ===================================================================== *)

(** X16: the assertion of [test_timestamp_soon] holds for every clock
    and every draw: [strptime] puts [soon] on 1900-01-01, which is
    earlier than any instant of a later year, so the comparison with
    [ten_seconds_from_now] says nothing about the seconds. *)
Theorem X16_test_timestamp_soon_cannot_fail g ten_seconds_from_now now below :
  CONFIG_TIMESTAMP_FMT g = "%H:%M:%S" ->
  valid_time now ->
  (0 < toordinal now /\ toordinal now + 1 <= MAXORDINAL)%Z ->
  (0 <= below 5 < 5)%Z ->
  (1900 < year ten_seconds_from_now)%Z ->
  test_timestamp_soon_body g ten_seconds_from_now now below = Some true.
Proof.
  intros Hfmt Hv Hd Hb Hy.
  pose proof Hv as (Hh & Hm & Hs & Hu).
  assert (T : (0 <= second_of_day now < 86400)%Z) by (unfold second_of_day; lia).
  unfold test_timestamp_soon_body, timestamp_soon, randint.
  change (5 - 1 + 1)%Z with 5%Z.
  destruct (@timestamp_returns g now (1 + below 5)%Z Hfmt Hv) as [text Ht].
  { assert (0 <= (second_of_day now + (1 + below 5)) / 86400 <= 1)%Z
      by (Z.div_mod_to_equations; lia). lia. }
  { rewrite Z.div_small by lia. cbn. lia. }
  rewrite Ht, (timestamp_text g _ Hfmt Hv Ht), Hfmt.
  set (tod := ((second_of_day now + (1 + below 5)) mod 86400)%Z).
  assert (R : (0 <= tod < 86400)%Z) by (apply Z.mod_pos_bound; lia).
  destruct (hms_of_second_of_day R) as (Bh & Bm & Bs & _).
  rewrite strptime_pad2 by assumption.
  unfold datetime_lt, datetime_fields. cbn [lex_lt year].
  apply Z.ltb_lt in Hy. now rewrite Hy.
Qed.

Lemma X16_test_timestamp_soon_cannot_fail_witness :
  test_timestamp_soon_body module_load (mkdatetime 2026 11 4 12 0 10 0) noon
                           (fun n => (n - 1)%Z) = Some true.
Proof.
  apply X16_test_timestamp_soon_cannot_fail.
  - reflexivity.
  - unfold valid_time. cbn. lia.
  - vm_compute. split; [reflexivity|discriminate].
  - cbn. lia.
  - cbn. lia.
Defined.

(* ===================================================================== *)
(** ** configure_logging *)
(* ===================================================================== *)

(** X17: [configure_logging] adds two handlers, for the console and for
    the file named after the day, and both end at level DEBUG whether
    [__debug__] holds or not: the levels set in the two branches are
    overwritten.  Which records are written is therefore decided by the
    level of the root logger alone, DEBUG under [__debug__] and INFO
    otherwise; and a second call adds the two handlers once more. *)
Theorem X17_configure_logging_handlers debug today root levelno :
  let console :=
    mkhandler ToStdout DEBUG (Some "%(asctime)s - [%(levelname)s] - %(message)s") in
  let file :=
    mkhandler (ToFile (isoformat_date today ++ ".log") "w") DEBUG
              (Some "%(asctime)s - [%(levelname)s] - %(message)s") in
  configure_logging debug today root
  = mklogger (if debug then DEBUG else INFO)
             (l_handlers root ++ [console; file])%list /\
  handlers_writing (configure_logging debug today (mklogger (l_level root) []))
                   levelno
  = (if ((if debug then DEBUG else INFO) <=? levelno)%Z then [console; file] else []) /\
  l_handlers (configure_logging debug today (configure_logging debug today root))
  = (l_handlers root ++ [console; file; console; file])%list.
Proof.
  cbv zeta. split; [reflexivity|]. split.
  - unfold handlers_writing, configure_logging.
    cbn [l_level l_handlers app filter handler_setLevel handler_setFormatter
         h_level h_target h_formatter].
    destruct debug; unfold DEBUG, INFO;
      destruct (_ <=? levelno)%Z eqn:E; try reflexivity;
      apply Z.leb_le in E;
      repeat match goal with
             | |- context [(10 <=? levelno)%Z] =>
                 replace (10 <=? levelno)%Z with true by (symmetry; apply Z.leb_le; lia)
             end; reflexivity.
  - unfold configure_logging. cbn [l_handlers]. now rewrite <- app_assoc.
Qed.
